(** * Screen recording keywords of SeleniumLibrary

    A shallow embedding of [src/SeleniumLibrary/keywords/screenshot.py]:
    the path allocation helpers, [Screen Record Start], the capture loop
    run by the recording thread, and [Screen Record Stop] with its bounded
    wait and its video assembly.

    Module-level Python globals are fields of [Globals]; every keyword is a
    computation in the monad [M], which threads the globals, collects the
    effects a call performs (log lines, sleeps, thread starts, encoder calls)
    and distinguishes a normal return from a raised exception. *)

From Stdlib Require Import ZArith Ascii Floats.SpecFloat.
From stdpp Require Import base list strings pretty gmap.

Open Scope Z_scope.

(** ** Python values *)

(** Python floats are IEEE binary64 numbers. *)
Abbreviation float := spec_float.

Definition float_sub : float -> float -> float := SFsub 53 1024.
Definition float_div : float -> float -> float := SFdiv 53 1024.
Definition float_eqb : float -> float -> bool := SFeqb.

(** [float(n)] for a Python int. *)
Definition float_of_int (n : Z) : float := binary_normalize 53 1024 n 0 false.

Definition float_zero : float := S754_zero false.

(** Exceptions that the modelled code raises or lets escape. *)
Inductive exn :=
  | NameError
  | RuntimeError (msg : string)
  | ValueError
  | OverflowError
  | IndexError
  | AttributeError
  | FormatError
  | OSError
  | WebDriverException.

(** [int(x)] for a float: truncation towards zero; infinities and NaN are
    rejected. *)
Definition int_of_float (x : float) : exn + Z :=
  match x with
  | S754_zero _ => inr 0
  | S754_infinity _ => inl OverflowError
  | S754_nan => inl ValueError
  | S754_finite s m e =>
      let a := match e with
               | Zneg p => Z.pos m / 2 ^ Z.pos p
               | _ => Z.pos m * 2 ^ e
               end in
      inr (if s then - a else a)
  end.

(** [l[i]] on a Python list: negative indices count from the end; the
    result is the position addressed, [None] when Python raises
    [IndexError]. *)
Definition py_index {A} (l : list A) (i : Z) : option nat :=
  let n := Z.of_nat (length l) in
  if (0 <=? i) && (i <? n) then Some (Z.to_nat i)
  else if (- n <=? i) && (i <? 0) then Some (Z.to_nat (n + i))
  else None.

(** The [index] argument of [Screen Record Stop] as the keyword receives it:
    [None], a value that [int()] converts to an integer, or a value that
    [int()] rejects. *)
Inductive py_arg :=
  | ArgNone
  | ArgInt (i : Z)
  | ArgBad.

(** ** The data of a recording *)

(** One entry of [screen_video_queue], the four-element list
    [[0, True, screenshots, False]]: position 0 is the recording time,
    position 1 the recording switch, position 2 the list of captured files,
    position 3 the flag set by the capture loop when it has ended.  The
    initial integer [0] at position 0 is represented by the float [+0.0],
    which [!= 0] and [/] treat alike. *)
Record Session := {
  elapsedSeconds : float;
  recording : bool;
  framePaths : list string;
  finished : bool
}.

Record image := { height : Z; width : Z; channels : Z }.

Inductive fnode :=
  | Directory
  | ImageFile (img : image)
  | OtherFile.

(** The module globals, the part of the library context the keywords read,
    and the file system. An unbound global (a [NameError] on access) is
    [None]. *)
Record Globals := {
  screen_video_queue : option (list Session);
  g_screenshots_index : option Z;
  g_video_index : option Z;
  screenshot_root_directory : option string;
  log_dir : string;
  drivers_current : bool;
  fs : gmap string fnode
}.

Definition set_screen_video_queue (q : option (list Session)) (g : Globals) : Globals :=
  {| screen_video_queue := q;
     g_screenshots_index := g_screenshots_index g;
     g_video_index := g_video_index g;
     screenshot_root_directory := screenshot_root_directory g;
     log_dir := log_dir g;
     drivers_current := drivers_current g;
     fs := fs g |}.

Definition set_g_screenshots_index (i : option Z) (g : Globals) : Globals :=
  {| screen_video_queue := screen_video_queue g;
     g_screenshots_index := i;
     g_video_index := g_video_index g;
     screenshot_root_directory := screenshot_root_directory g;
     log_dir := log_dir g;
     drivers_current := drivers_current g;
     fs := fs g |}.

Definition set_g_video_index (i : option Z) (g : Globals) : Globals :=
  {| screen_video_queue := screen_video_queue g;
     g_screenshots_index := g_screenshots_index g;
     g_video_index := i;
     screenshot_root_directory := screenshot_root_directory g;
     log_dir := log_dir g;
     drivers_current := drivers_current g;
     fs := fs g |}.

Definition set_fs (f : gmap string fnode) (g : Globals) : Globals :=
  {| screen_video_queue := screen_video_queue g;
     g_screenshots_index := g_screenshots_index g;
     g_video_index := g_video_index g;
     screenshot_root_directory := screenshot_root_directory g;
     log_dir := log_dir g;
     drivers_current := drivers_current g;
     fs := f |}.

(** ** Effects *)

(** The texts passed to [self.info], with their arguments. *)
Inductive message :=
  | MsgNoBrowser                         (* Cannot capture screenshot because no browser is open. *)
  | MsgEmbed (path : string) (w : Z)     (* the image row of _embed_to_log *)
  | MsgStart (index : Z)                 (* start screen record with index : {} *)
  | MsgCannotCapture                     (* Cannot capture screenshots *)
  | MsgStop (index : Z)                  (* stop screen record and save with index : {} *)
  | MsgCannotStop (index : Z)            (* screenshots for index {} cannot stop *)
  | MsgWaited (count : Z)                (* wait {} seconds util finishing record *)
  | MsgRecorded (time : float) (n : Z)   (* video record time {}, length of picture list {} *)
  | MsgWriteDone (index : Z).            (* write file done for index : {} *)

Inductive event :=
  | LogInfo (m : message)
  | Sleep (secs : Z)
  | ThreadStart (index : Z) (filename : string)
  | WriterOpen (path fourcc : string) (fps : Z) (size : Z * Z)
  | WriterWrite (path : string) (frame : option image)
  | WriterRelease.

Inductive outcome (A : Type) :=
  | Return (a : A)
  | Raise (e : exn)
  | Diverge.
Arguments Return {A} a.
Arguments Raise {A} e.
Arguments Diverge {A}.

(** A computation reads and writes the globals, emits events, and returns,
    raises, or exhausts the fuel of an unbounded loop ([Diverge]). *)
Definition M (A : Type) : Type := Globals -> outcome A * Globals * list event.

Definition ret {A} (a : A) : M A := fun g => (Return a, g, []).

Definition bind {A B} (m : M A) (k : A -> M B) : M B := fun g =>
  match m g with
  | (Return a, g1, t1) =>
      match k a g1 with
      | (r, g2, t2) => (r, g2, t1 ++ t2)
      end
  | (Raise e, g1, t1) => (Raise e, g1, t1)
  | (Diverge, g1, t1) => (Diverge, g1, t1)
  end.

#[global] Instance M_ret : MRet M := @ret.
#[global] Instance M_bind : MBind M := fun A B k m => bind m k.

Definition raise {A} (e : exn) : M A := fun g => (Raise e, g, []).
Definition diverge {A} : M A := fun g => (Diverge, g, []).
Definition get : M Globals := fun g => (Return g, g, []).
Definition modify (f : Globals -> Globals) : M unit := fun g => (Return tt, f g, []).
Definition emit (e : event) : M unit := fun g => (Return tt, g, [e]).

(** [try: body except: handler] with a bare [except]. *)
Definition try_except {A} (body : M A) (handler : M A) : M A := fun g =>
  match body g with
  | (Raise _, g1, t1) =>
      match handler g1 with
      | (r, g2, t2) => (r, g2, t1 ++ t2)
      end
  | r => r
  end.

Definition info (m : message) : M unit := emit (LogInfo m).

(** [time.sleep(secs)]; the other threads run meanwhile and change the
    globals by [others].  The capture threads and the main thread share the
    globals; a keyword is run as one step, and the points at which another
    thread is seen to act are its sleeps. *)
Definition sleep_while (others : Globals -> Globals) (secs : Z) : M unit := fun g =>
  (Return tt, others g, [Sleep secs]).

Definition sleep (secs : Z) : M unit := sleep_while id secs.

Definition lift_exn {A} (r : exn + A) : M A :=
  match r with
  | inl e => raise e
  | inr a => ret a
  end.

(** ** Operations on the queue *)

(** [screen_video_queue], as read by a function that declares it global. *)
Definition get_queue : M (list Session) :=
  g ← get;
  match screen_video_queue g with
  | None => raise NameError
  | Some q => ret q
  end.

(** [screen_video_queue[index]]: the position addressed and the session. *)
Definition get_session (index : Z) : M (nat * Session) :=
  q ← get_queue;
  match py_index q index with
  | None => raise IndexError
  | Some k =>
      match q !! k with
      | None => raise IndexError
      | Some s => ret (k, s)
      end
  end.

(** An assignment [screen_video_queue[index][j] = v], or an append to
    [screen_video_queue[index][2]]. *)
Definition update_session (index : Z) (f : Session -> Session) : M unit :=
  '(k, s) ← get_session index;
  q ← get_queue;
  modify (set_screen_video_queue (Some (<[k := f s]> q))).

Definition set_elapsedSeconds (t : float) (s : Session) : Session :=
  {| elapsedSeconds := t; recording := recording s;
     framePaths := framePaths s; finished := finished s |}.

Definition set_recording (b : bool) (s : Session) : Session :=
  {| elapsedSeconds := elapsedSeconds s; recording := b;
     framePaths := framePaths s; finished := finished s |}.

Definition append_frame (p : string) (s : Session) : Session :=
  {| elapsedSeconds := elapsedSeconds s; recording := recording s;
     framePaths := framePaths s ++ [p]; finished := finished s |}.

Definition set_finished (b : bool) (s : Session) : Session :=
  {| elapsedSeconds := elapsedSeconds s; recording := recording s;
     framePaths := framePaths s; finished := b |}.

(** ** The platform *)

(** What the code takes from Python's standard library: [os.sep],
    [os.path.join], [os.path.dirname] and [str.format] applied with the single
    keyword argument [index] ([None] when [format] raises). *)
Class Platform := {
  os_sep : string;
  path_join : string -> string -> string;
  path_dirname : string -> string;
  str_format : string -> Z -> option string
}.

(** [s.replace('/', sep)] *)
Fixpoint replace_slash (sep s : string) : string :=
  match s with
  | EmptyString => EmptyString
  | String c s' =>
      if Ascii.eqb c "/"%char then sep +:+ replace_slash sep s'
      else String c (replace_slash sep s')
  end.

Definition path_exists (g : Globals) (path : string) : bool :=
  bool_decide (is_Some (fs g !! path)).

(** [cv2.imread(path)]: [None] when the file is not a readable image. *)
Definition imread (g : Globals) (path : string) : option image :=
  match fs g !! path with
  | Some (ImageFile img) => Some img
  | _ => None
  end.

(** What the driver answers to one [save_screenshot(path)]: the file is
    written and [True] returned, [False] is returned, or the call raises. *)
Inductive capture :=
  | Saved (img : image)
  | NotSaved
  | Crashed.

(** What the environment answers during one pass through the capture loop:
    whether [os.makedirs] succeeds if it is called, the driver's answer, and
    the reading of [time.time()] after the capture. *)
Record attempt := {
  makedirs_ok : bool;
  shot : capture;
  now : float
}.

Inductive loop_state :=
  | Looping
  | Ended.

Section Keywords.
Context `{Platform}.

(** ** Path allocation *)

(** [self.ctx.screenshot_root_directory or self.log_dir] *)
Definition screenshot_directory (g : Globals) : string :=
  match screenshot_root_directory g with
  | Some d => if String.eqb d "" then log_dir g else d
  | None => log_dir g
  end.

(** The [while True] loop shared by the three path functions, started with
    the counter at [index]; the result comes with the last value the counter
    took. *)
Fixpoint next_path (fuel : nat) (g : Globals) (directory filename : string)
    (index : Z) : outcome string * Z :=
  match fuel with
  | O => (Diverge, index)
  | S fuel' =>
      let index := index + 1 in
      match str_format filename index with
      | None => (Raise FormatError, index)
      | Some formatted =>
          let path := path_join directory formatted in
          if String.eqb formatted filename || negb (path_exists g path)
          then (Return path, index)
          else next_path fuel' g directory filename index
      end
  end.

Definition lift_outcome {A} (r : outcome A) : M A := fun g => (r, g, []).

Definition _get_screenshot_path (fuel : nat) (filename : string) : M string :=
  g ← get;
  let directory := screenshot_directory g in
  let filename := replace_slash os_sep filename in
  let index := 0 in
  lift_outcome (fst (next_path fuel g directory filename index)).

Definition _get_video_image_path (fuel : nat) (filename : string) : M string :=
  g ← get;
  let directory := screenshot_directory g in
  let filename := replace_slash os_sep filename in
  let index := match g_screenshots_index g with
               | None => 0
               | Some i => i
               end in
  let '(r, index) := next_path fuel g directory filename index in
  modify (set_g_screenshots_index (Some index));;
  lift_outcome r.

Definition _get_video_path (fuel : nat) (filename : string) : M string :=
  g ← get;
  let directory := screenshot_directory g in
  let filename := replace_slash os_sep filename in
  let index := match g_video_index g with
               | None => 0
               | Some i => i
               end in
  let '(r, index) := next_path fuel g directory filename index in
  modify (set_g_video_index (Some index));;
  lift_outcome r.

Definition _create_directory (mk_ok : bool) (path : string) : M unit :=
  g ← get;
  let target_dir := path_dirname path in
  if path_exists g target_dir then ret tt
  else if mk_ok then modify (set_fs (<[target_dir := Directory]> (fs g)))
  else raise OSError.

Definition _embed_to_log (path : string) (w : Z) : M unit :=
  info (MsgEmbed path w).

(** [self.driver.save_screenshot(path)] *)
Definition save_screenshot (c : capture) (path : string) : M bool :=
  match c with
  | Saved img =>
      g ← get;
      modify (set_fs (<[path := ImageFile img]> (fs g)));;
      ret true
  | NotSaved => ret false
  | Crashed => raise WebDriverException
  end.

(** ** Capture Page Screenshot *)

Definition capture_page_screenshot (fuel : nat) (mk_ok : bool) (c : capture)
    (filename : string) : M (option string) :=
  g ← get;
  if negb (drivers_current g) then
    info MsgNoBrowser;;
    ret None
  else
    path ← _get_screenshot_path fuel filename;
    _create_directory mk_ok path;;
    saved ← save_screenshot c path;
    if negb saved then
      raise (RuntimeError ("Failed to save screenshot '" +:+ path +:+ "'."))
    else
      _embed_to_log path 800;;
      ret (Some path).

(** ** Screen Record Start *)

Definition capture_screenshots (filename : string) : M Z :=
  g ← get;
  match screen_video_queue g with
  | None => modify (set_screen_video_queue (Some []))
  | Some _ => ret tt
  end;;
  let screenshots := [] in
  q ← get_queue;
  modify (set_screen_video_queue
            (Some (q ++ [{| elapsedSeconds := float_zero; recording := true;
                            framePaths := screenshots; finished := false |}])));;
  q ← get_queue;
  let index := Z.of_nat (length q) - 1 in
  info (MsgStart index);;
  emit (ThreadStart index filename);;
  ret index.

(** ** The capture loop *)

(** The [try] statement in the body of the loop. *)
Definition capture_once (fuel : nat) (index : Z) (filename : string)
    (start_time : float) (a : attempt) : M unit :=
  try_except
    (path ← _get_video_image_path fuel filename;
     _create_directory (makedirs_ok a) path;;
     saved ← save_screenshot (shot a) path;
     (if (saved : bool) then update_session index (append_frame path) else ret tt);;
     update_session index (set_elapsedSeconds (float_sub (now a) start_time)))
    (info MsgCannotCapture;;
     sleep 1).

(** One evaluation of the loop condition followed by the body, or by the
    statement after the loop when the condition is false. *)
Definition loop_step (fuel : nat) (index : Z) (filename : string)
    (start_time : float) (a : attempt) : M loop_state :=
  '(_, s) ← get_session index;
  if recording s then
    capture_once fuel index filename start_time a;;
    ret Looping
  else
    update_session index (set_finished true);;
    ret Ended.


(** ** Screen Record Stop *)

(** Lines 152-154: the frame rate for [n] frames recorded in [t] seconds. *)
Definition video_fps (n : Z) (t : float) : M Z :=
  fps ← lift_exn (int_of_float (float_div (float_of_int n) t));
  ret (if (fps <? 1) || (n <? 5) then 1 else fps).

(** [for i in range(1, len(frames))]: read and write the frames at
    positions [1 ..]. *)
Definition write_frames (frames : list string) : M unit :=
  g ← get;
  foldr (fun p k => emit (WriterWrite p (imread g p));; k) (ret tt) (drop 1 frames).

(** Lines 147-164: what Stop does once the loop has been seen finished.
    The encoder is represented by the events of the calls made on it
    ([WriterOpen], [WriterWrite], [WriterRelease]); the video file that it
    creates at [path] is not entered into [fs]. *)
Definition save_to_mp4 (fuel : nat) (index : Z) (video_name : string)
    (wait_finishing_record_count : Z) : M unit :=
  info (MsgWaited wait_finishing_record_count);;
  '(_, s) ← get_session index;
  let n := Z.of_nat (length (framePaths s)) in
  info (MsgRecorded (elapsedSeconds s) n);;
  if negb (float_eqb (elapsedSeconds s) float_zero) && (0 <? n) then
    let fourcc := "mp4v" in
    fps ← video_fps n (elapsedSeconds s);
    g ← get;
    first ← match framePaths s with
            | [] => raise IndexError
            | p :: _ => ret p
            end;
    img ← match imread g first with
          | None => raise AttributeError
          | Some img => ret img
          end;
    let size := (width img, height img) in
    path ← _get_video_path fuel video_name;
    emit (WriterOpen path fourcc fps size);;
    write_frames (framePaths s);;
    emit WriterRelease;;
    info (MsgWriteDone index)
  else ret tt.

(** The [while not screen_video_queue[index][3]] loop; [others k] is what
    the other threads do during the sleep that follows [k] earlier ones.
    [None] is the early [return] after the fifth sleep.  The loop runs at most
    five times, so a [budget] of four further passes is never exhausted. *)
Fixpoint wait_finishing (others : nat -> Globals -> Globals) (budget : nat)
    (index : Z) (wait_finishing_record_count : Z) : M (option Z) :=
  '(_, s) ← get_session index;
  if negb (finished s) then
    sleep_while (others (Z.to_nat wait_finishing_record_count)) 1;;
    let wait_finishing_record_count := wait_finishing_record_count + 1 in
    if wait_finishing_record_count =? 5 then
      info (MsgCannotStop index);;
      ret None
    else
      match budget with
      | O => diverge
      | S budget' => wait_finishing others budget' index wait_finishing_record_count
      end
  else ret (Some wait_finishing_record_count).

(** Lines 129-137: the checks on the queue and on [index], and [int(index)]. *)
Definition checked_index (index : py_arg) : M Z :=
  g ← get;
  match screen_video_queue g with
  | None => raise (RuntimeError "screen video queue is not init")
  | Some q =>
      match index with
      | ArgNone =>
          raise (RuntimeError "index is null or invalid, please make sure index is correct")
      | ArgBad => raise ValueError
      | ArgInt i =>
          if Z.of_nat (length q) <=? i then
            raise (RuntimeError "index is null or invalid, please make sure index is correct")
          else ret i
      end
  end.

Definition stop_recording_and_save_to_mp4 (others : nat -> Globals -> Globals)
    (fuel : nat) (index : py_arg) (video_name : string) : M unit :=
  index ← checked_index index;
  info (MsgStop index);;
  update_session index (set_recording false);;
  waited ← wait_finishing others 4 index 0;
  match waited with
  | None => ret tt
  | Some count => save_to_mp4 fuel index video_name count
  end.

End Keywords.

(** ** A concrete platform

    POSIX paths, and [str.format] on the templates whose braces occur only as
    the field [{index}] or doubled; on any other template this instance
    answers [None]. It serves to run the keywords on concrete inputs. *)
Module Posix.

Fixpoint ends_with_slash (s : string) : bool :=
  match s with
  | EmptyString => false
  | String c EmptyString => Ascii.eqb c "/"%char
  | String _ s' => ends_with_slash s'
  end.

Definition starts_with_slash (s : string) : bool :=
  match s with
  | String c _ => Ascii.eqb c "/"%char
  | EmptyString => false
  end.

(** [posixpath.join(a, b)] *)
Definition join (a b : string) : string :=
  if starts_with_slash b then b
  else if String.eqb a "" || ends_with_slash a then a +:+ b
  else a +:+ "/" +:+ b.

(** [p[:p.rfind('/') + 1]] *)
Fixpoint head_of (p : string) : string :=
  match p with
  | EmptyString => EmptyString
  | String c p' =>
      match head_of p' with
      | EmptyString => if Ascii.eqb c "/"%char then String c EmptyString else EmptyString
      | h => String c h
      end
  end.

(** [s.rstrip('/')] *)
Fixpoint rstrip_slash (s : string) : string :=
  match s with
  | EmptyString => EmptyString
  | String c s' =>
      match rstrip_slash s' with
      | EmptyString => if Ascii.eqb c "/"%char then EmptyString else String c EmptyString
      | r => String c r
      end
  end.

(** [posixpath.dirname(p)] *)
Definition dirname (p : string) : string :=
  let head := head_of p in
  match rstrip_slash head with
  | EmptyString => head
  | stripped => stripped
  end.

Fixpoint format_index (s : string) (i : Z) : option string :=
  match s with
  | EmptyString => Some EmptyString
  | String "{" (String "i" (String "n" (String "d" (String "e" (String "x" (String "}" rest)))))) =>
      (fun r => pretty i +:+ r) <$> format_index rest i
  | String "{" (String "{" rest) => String "{"%char <$> format_index rest i
  | String "}" (String "}" rest) => String "}"%char <$> format_index rest i
  | String "{" _ => None
  | String "}" _ => None
  | String c rest => String c <$> format_index rest i
  end.

#[export] Instance platform : Platform := {
  os_sep := "/";
  path_join := join;
  path_dirname := dirname;
  str_format := format_index
}.

End Posix.

(** ** Notions used to state the properties *)

(** The session that [screen_video_queue[index]] denotes in [g], with its
    position, or the exception the access raises. *)
Definition session_at (g : Globals) (index : Z) : exn + (nat * Session) :=
  match screen_video_queue g with
  | None => inl NameError
  | Some q =>
      match py_index q index with
      | None => inl IndexError
      | Some k =>
          match q !! k with
          | None => inl IndexError
          | Some s => inr (k, s)
          end
      end
  end.

(** [g] with the session at position [k] replaced. *)
Definition write_session (k : nat) (s : Session) (g : Globals) : Globals :=
  match screen_video_queue g with
  | None => g
  | Some q => set_screen_video_queue (Some (<[k := s]> q)) g
  end.

(** The number of sessions ever started. *)
Definition registry_size (g : Globals) : nat :=
  match screen_video_queue g with
  | None => 0%nat
  | Some q => length q
  end.

(** A relation between the globals before and after is kept by a
    computation when every run of it relates its initial and final state. *)
Definition keeps {A} (R : relation Globals) (m : M A) : Prop :=
  forall g r g' t, m g = (r, g', t) -> R g g'.

(** The registry, empty while the global is unbound. *)
Definition registry (g : Globals) : list Session :=
  match screen_video_queue g with
  | None => []
  | Some q => q
  end.

(** The session a start appends. *)
Definition fresh_session : Session :=
  {| elapsedSeconds := float_zero; recording := true; framePaths := []; finished := false |}.

(** The two persistent counters, which count from 0 while unbound. *)
Definition frame_counter (g : Globals) : Z :=
  match g_screenshots_index g with
  | None => 0
  | Some i => i
  end.

Definition video_counter (g : Globals) : Z :=
  match g_video_index g with
  | None => 0
  | Some i => i
  end.

(** How one session may change in place: frames are only appended, the
    recording switch only goes off, the finished flag only goes on. *)
Definition session_evolves (s s' : Session) : Prop :=
  framePaths s `prefix_of` framePaths s' /\
  (recording s' = true -> recording s = true) /\
  (finished s = true -> finished s' = true).

(** How the globals may change: every session stays at its position and
    evolves there, new sessions come after the existing ones, and the
    counters do not decrease. *)
Definition evolves (g g' : Globals) : Prop :=
  (exists q1 tail, registry g' = q1 ++ tail /\ Forall2 session_evolves (registry g) q1) /\
  frame_counter g <= frame_counter g' /\
  video_counter g <= video_counter g'.

(** The same, with no session added. *)
Definition steady (g g' : Globals) : Prop :=
  Forall2 session_evolves (registry g) (registry g') /\
  frame_counter g <= frame_counter g' /\
  video_counter g <= video_counter g'.

(** Sequential starts; between two of them the other threads change the
    globals by the function paired with the call. *)
Fixpoint start_recordings (calls : list (string * (Globals -> Globals))) : M (list Z) :=
  match calls with
  | [] => ret []
  | (filename, others) :: rest =>
      h ← capture_screenshots filename;
      modify others;;
      hs ← start_recordings rest;
      ret (h :: hs)
  end.

(** A process in which no browser is open and nothing has been recorded. *)
Definition no_browser : Globals :=
  {| screen_video_queue := None; g_screenshots_index := None; g_video_index := None;
     screenshot_root_directory := None; log_dir := "/out"; drivers_current := false;
     fs := {[ "/out" := Directory ]} |}.



(** A process with two frames on disk. *)
Definition two_frames : Globals :=
  {| screen_video_queue := None; g_screenshots_index := None; g_video_index := None;
     screenshot_root_directory := None; log_dir := "/out"; drivers_current := true;
     fs := {[ "/out" := Directory;
              "/out/frame-1.png" := OtherFile;
              "/out/frame-2.png" := OtherFile ]} |}.


(** The first two statements of the [try] block of the capture loop: the
    path of the next frame is allocated and its directory is created. *)
Definition prepare_frame `{Platform} (fuel : nat) (filename : string) (mk_ok : bool) : M string :=
  path ← _get_video_image_path fuel filename;
  _create_directory mk_ok path;;
  ret path.

(** A process with one session being recorded, started at time 100.0. *)
Definition recording_one : Globals :=
  {| screen_video_queue := Some [fresh_session]; g_screenshots_index := None;
     g_video_index := None; screenshot_root_directory := None; log_dir := "/out";
     drivers_current := true; fs := {[ "/out" := Directory ]} |}.

Definition binary64 (m e : Z) : float := binary_normalize 53 1024 m e false.

(** The globals at the successive polls of a stop: [g] at the first poll,
    and after each sleep what the other threads have made of them. *)
Fixpoint poll_state (others : nat -> Globals -> Globals) (g : Globals) (k : nat) : Globals :=
  match k with
  | O => g
  | S k' => others k' (poll_state others g k')
  end.

(** What a poll of [screen_video_queue[index][3]] reads in [g]. *)
Definition seen_finished (g : Globals) (index : Z) : option bool :=
  match session_at g index with
  | inr (_, s) => Some (finished s)
  | inl _ => None
  end.

(** The durations of the sleeps among the events of a run. *)
Definition sleeps (t : list event) : list Z :=
  omap (fun e => match e with Sleep secs => Some secs | _ => None end) t.

(** The encoders opened among the events of a run, with their path,
    codec, frame rate and frame size. *)
Definition writer_opened (t : list event) : list (string * string * Z * (Z * Z)) :=
  omap (fun e => match e with
                 | WriterOpen path fourcc fps size => Some (path, fourcc, fps, size)
                 | _ => None
                 end) t.

(** The frames written to the encoder, in order. *)
Definition frames_written (t : list event) : list string :=
  omap (fun e => match e with WriterWrite p _ => Some p | _ => None end) t.

(** Following the words of the specification: the floor of a float. *)
Definition floor_of_float (x : float) : option Z :=
  match x with
  | S754_zero _ => Some 0
  | S754_finite s m e =>
      let v := if s then Z.neg m else Z.pos m in
      Some match e with
           | Zneg p => v / 2 ^ Z.pos p
           | _ => v * 2 ^ e
           end
  | _ => None
  end.

(** Following the words of the specification: the frame rate is the floor
    of the frame count over the elapsed time, forced to 1 when that is below
    1 or when there are fewer than 5 frames. *)
Definition spec_fps (n : Z) (t : float) : option Z :=
  q ← floor_of_float (float_div (float_of_int n) t);
  Some (if (q <? 1) || (n <? 5) then 1 else q).

Definition frame_image : image := {| height := 600; width := 800; channels := 3 |}.

(** A process in which handle 0 has recorded six frames in 3.0 seconds and
    its capture loop is still running. *)
Definition six_frames : Globals :=
  {| screen_video_queue :=
       Some [{| elapsedSeconds := binary64 3 0; recording := true;
                framePaths := ["/out/frame-1.png"; "/out/frame-2.png"; "/out/frame-3.png";
                               "/out/frame-4.png"; "/out/frame-5.png"; "/out/frame-6.png"];
                finished := false |}];
     g_screenshots_index := Some 6; g_video_index := None;
     screenshot_root_directory := None; log_dir := "/out"; drivers_current := true;
     fs := {[ "/out" := Directory;
              "/out/frame-1.png" := ImageFile frame_image;
              "/out/frame-2.png" := ImageFile frame_image;
              "/out/frame-3.png" := ImageFile frame_image;
              "/out/frame-4.png" := ImageFile frame_image;
              "/out/frame-5.png" := ImageFile frame_image;
              "/out/frame-6.png" := ImageFile frame_image ]} |}.

(** The other thread of that process: the capture loop of handle 0 makes
    one more pass during each sleep of the main thread. *)
Definition capture_loop_0 (_ : nat) (g : Globals) : Globals :=
  (loop_step (H := Posix.platform) 3 0 "frame-{index}.png" (binary64 100 0)
     {| makedirs_ok := true; shot := Saved frame_image; now := binary64 104 0 |} g).1.2.

(** No other thread. *)
Definition nobody (_ : nat) (g : Globals) : Globals := g.

(** ** Set Screenshot Directory *)

(** What [set_screenshot_directory] takes from outside this file, applied to
    its argument, which is [None] or a string: [is_noney] of
    [SeleniumLibrary.utils], and [os.path.abspath], which returns a path or
    raises. *)
Class Host := {
  is_noney : option string -> bool;
  path_abspath : option string -> exn + string
}.

Definition set_screenshot_root_directory (d : option string) (g : Globals) : Globals :=
  {| screen_video_queue := screen_video_queue g;
     g_screenshots_index := g_screenshots_index g;
     g_video_index := g_video_index g;
     screenshot_root_directory := d;
     log_dir := log_dir g;
     drivers_current := drivers_current g;
     fs := fs g |}.

Definition set_screenshot_directory `{Platform} `{Host} (mk_ok : bool)
    (path : option string) : M (option string) :=
  path ← (if is_noney path then ret None
          else
            path ← lift_exn (path_abspath path);
            _create_directory mk_ok path;;
            ret (Some path));
  g ← get;
  let previous := screenshot_root_directory g in
  modify (set_screenshot_root_directory path);;
  ret previous.

(** A host on which the strings NONE and none are none-like and every other
    string is an absolute path already. *)
Definition plain_host : Host := {|
  is_noney := fun p =>
    match p with
    | None => true
    | Some s => String.eqb s "NONE" || String.eqb s "none"
    end;
  path_abspath := fun p =>
    match p with
    | None => inl ValueError
    | Some s => inr s
    end
|}.

(** ** Further notions *)

(** A session is settled when it is not both finished and recording. *)
Definition settled (s : Session) : Prop :=
  finished s = true -> recording s = false.


(** The globals after one more pass of the capture loop of a handle. *)
Definition pass `{Platform} (fuel : nat) (index : Z) (filename : string)
    (start_time : float) (a : attempt) (g : Globals) : Globals :=
  (loop_step fuel index filename start_time a g).1.2.

(** A process whose screenshot directory was configured and that holds one
    screenshot. *)
Definition configured : Globals :=
  {| screen_video_queue := None; g_screenshots_index := None; g_video_index := None;
     screenshot_root_directory := Some "/shots"; log_dir := "/out"; drivers_current := true;
     fs := {[ "/out" := Directory; "/shots" := Directory;
              "/shots/selenium-screenshot-1.png" := ImageFile frame_image ]} |}.

(** A process in which handle 0 has finished recording six frames. *)
Definition six_frames_done : Globals :=
  write_session 0
    {| elapsedSeconds := binary64 3 0; recording := false;
       framePaths := ["/out/frame-1.png"; "/out/frame-2.png"; "/out/frame-3.png";
                      "/out/frame-4.png"; "/out/frame-5.png"; "/out/frame-6.png"];
       finished := true |} six_frames.

(** Every session of the registry is settled. *)
Definition all_settled (g : Globals) : Prop := Forall settled (registry g).

(** The numbers of seconds reported by the wait log lines of a run. *)
Definition waits_logged (t : list event) : list Z :=
  omap (fun e => match e with LogInfo (MsgWaited n) => Some n | _ => None end) t.

(** * Properties *)

(** ** Running computations *)

Ltac unfold_m :=
  unfold mbind, M_bind, bind, ret, raise, diverge, get, modify, emit, info,
    sleep, sleep_while, lift_exn.

Lemma run_bind {A B} (m : M A) (k : A -> M B) g :
  (m ≫= k) g =
  match m g with
  | (Return a, g1, t1) => let '(r, g2, t2) := k a g1 in (r, g2, t1 ++ t2)
  | (Raise e, g1, t1) => (Raise e, g1, t1)
  | (Diverge, g1, t1) => (Diverge, g1, t1)
  end.
Proof. reflexivity. Qed.

Lemma run_bind_return {A B} (m : M A) (k : A -> M B) g a g1 t1 :
  m g = (Return a, g1, t1) ->
  (m ≫= k) g = let '(r, g2, t2) := k a g1 in (r, g2, t1 ++ t2).
Proof. intros E. rewrite run_bind, E. reflexivity. Qed.

Lemma run_bind_raise {A B} (m : M A) (k : A -> M B) g e g1 t1 :
  m g = (Raise e, g1, t1) -> (m ≫= k) g = (Raise e, g1, t1).
Proof. intros E. rewrite run_bind, E. reflexivity. Qed.

Lemma py_index_lt {A} (l : list A) i k :
  py_index l i = Some k -> (k < length l)%nat.
Proof.
  unfold py_index. intros E.
  destruct (0 <=? i) eqn:E0, (i <? Z.of_nat (length l)) eqn:E1; simpl in E.
  - inversion E. lia.
  - destruct (- Z.of_nat (length l) <=? i) eqn:E2, (i <? 0) eqn:E3; simpl in E;
      try discriminate. lia.
  - destruct (- Z.of_nat (length l) <=? i) eqn:E2, (i <? 0) eqn:E3; simpl in E;
      try discriminate. inversion E. lia.
  - destruct (- Z.of_nat (length l) <=? i) eqn:E2, (i <? 0) eqn:E3; simpl in E;
      try discriminate. lia.
Qed.

Lemma py_index_nonneg {A} (l : list A) i :
  0 <= i < Z.of_nat (length l) -> py_index l i = Some (Z.to_nat i).
Proof.
  intros [H0 H1]. unfold py_index.
  destruct (Z.leb_spec 0 i); [|lia]. destruct (Z.ltb_spec i (Z.of_nat (length l))); [|lia].
  reflexivity.
Qed.

Lemma py_index_neg {A} (l : list A) i :
  - Z.of_nat (length l) <= i < 0 ->
  py_index l i = Some (Z.to_nat (Z.of_nat (length l) + i)).
Proof.
  intros [H0 H1]. unfold py_index.
  destruct (Z.leb_spec 0 i); [lia|]. simpl.
  destruct (Z.leb_spec (- Z.of_nat (length l)) i); [|lia].
  destruct (Z.ltb_spec i 0); [|lia]. reflexivity.
Qed.

Lemma py_index_out {A} (l : list A) i :
  i < - Z.of_nat (length l) \/ Z.of_nat (length l) <= i -> py_index l i = None.
Proof.
  intros Hi. unfold py_index.
  destruct (Z.leb_spec 0 i), (Z.ltb_spec i (Z.of_nat (length l))),
    (Z.leb_spec (- Z.of_nat (length l)) i), (Z.ltb_spec i 0); simpl; try reflexivity; lia.
Qed.

Lemma get_session_run index g :
  get_session index g =
  (match session_at g index with inl e => Raise e | inr ks => Return ks end, g, []).
Proof.
  unfold get_session, get_queue, session_at. unfold_m.
  destruct (screen_video_queue g) as [q|]; cbn; [|reflexivity].
  destruct (py_index q index) as [k|]; cbn; [|reflexivity].
  destruct (q !! k); reflexivity.
Qed.

Lemma update_session_run index f g :
  update_session index f g =
  match session_at g index with
  | inl e => (Raise e, g, [])
  | inr (k, s) => (Return tt, write_session k (f s) g, [])
  end.
Proof.
  unfold update_session. rewrite run_bind, get_session_run.
  unfold session_at, write_session, get_queue. unfold_m.
  destruct (screen_video_queue g) as [q|] eqn:Eq; cbn; [|reflexivity].
  destruct (py_index q index) as [k|]; cbn; [|reflexivity].
  destruct (q !! k); cbn; [|reflexivity].
  rewrite Eq. reflexivity.
Qed.

Lemma session_at_lookup g index k s :
  session_at g index = inr (k, s) ->
  exists q, screen_video_queue g = Some q /\ py_index q index = Some k /\ q !! k = Some s.
Proof.
  unfold session_at. destruct (screen_video_queue g) as [q|]; [|discriminate].
  destruct (py_index q index) as [k'|] eqn:Ek; [|discriminate].
  destruct (q !! k') as [s'|] eqn:Es; [|discriminate].
  intros E. inversion E; subst. eauto.
Qed.

(** ** Relations kept by computations *)

Section Keeping.
Context {R : relation Globals} `{!PreOrder R}.

Lemma keeps_ret {A} (a : A) : keeps R (ret a).
Proof. intros g r g' t E. inversion E; subst. reflexivity. Qed.

Lemma keeps_raise {A} e : keeps R (@raise A e).
Proof. intros g r g' t E. inversion E; subst. reflexivity. Qed.

Lemma keeps_diverge {A} : keeps R (@diverge A).
Proof. intros g r g' t E. inversion E; subst. reflexivity. Qed.

Lemma keeps_get : keeps R get.
Proof. intros g r g' t E. inversion E; subst. reflexivity. Qed.

Lemma keeps_emit e : keeps R (emit e).
Proof. intros g r g' t E. inversion E; subst. reflexivity. Qed.

Lemma keeps_lift_outcome {A} (r : outcome A) : keeps R (lift_outcome r).
Proof. intros g r' g' t E. inversion E; subst. reflexivity. Qed.

Lemma keeps_lift_exn {A} (r : exn + A) : keeps R (lift_exn r).
Proof. destruct r; [apply keeps_raise | apply keeps_ret]. Qed.

Lemma keeps_modify f : (forall g, R g (f g)) -> keeps R (modify f).
Proof. intros Hf g r g' t E. inversion E; subst. apply Hf. Qed.

Lemma keeps_sleep_while others secs :
  (forall g, R g (others g)) -> keeps R (sleep_while others secs).
Proof. intros Hf g r g' t E. inversion E; subst. apply Hf. Qed.

Lemma keeps_bind {A B} (m : M A) (k : A -> M B) :
  keeps R m -> (forall a, keeps R (k a)) -> keeps R (m ≫= k).
Proof.
  intros Hm Hk g r g' t. rewrite run_bind.
  destruct (m g) as [[[a|e|] g1] t1] eqn:Em.
  - destruct (k a g1) as [[r2 g2] t2] eqn:Ek. intros E. inversion E; subst.
    transitivity g1; [eapply Hm | eapply Hk]; eassumption.
  - intros E. inversion E; subst. eapply Hm; eassumption.
  - intros E. inversion E; subst. eapply Hm; eassumption.
Qed.

Lemma keeps_try_except {A} (body handler : M A) :
  keeps R body -> keeps R handler -> keeps R (try_except body handler).
Proof.
  intros Hb Hh g r g' t. unfold try_except.
  destruct (body g) as [[[a|e|] g1] t1] eqn:Eb.
  - intros E. inversion E; subst. eapply Hb; eassumption.
  - destruct (handler g1) as [[r2 g2] t2] eqn:Ek. intros E. inversion E; subst.
    transitivity g1; [eapply Hb | eapply Hh]; eassumption.
  - intros E. inversion E; subst. eapply Hb; eassumption.
Qed.

Lemma keeps_get_session index : keeps R (get_session index).
Proof. intros g r g' t. rewrite get_session_run. intros E. inversion E; subst. reflexivity. Qed.

Lemma keeps_update_session index f :
  (forall g k s, session_at g index = inr (k, s) -> R g (write_session k (f s) g)) ->
  keeps R (update_session index f).
Proof.
  intros Hf g r g' t. rewrite update_session_run.
  destruct (session_at g index) as [e|[k s]] eqn:Es; intros E; inversion E; subst.
  - reflexivity.
  - apply Hf, Es.
Qed.

End Keeping.

(** ** The evolution relations *)

#[global] Instance session_evolves_preorder : PreOrder session_evolves.
Proof.
  split.
  - intros s. unfold session_evolves. split; [reflexivity | tauto].
  - intros s1 s2 s3 (Ha & Hb & Hc) (Ha' & Hb' & Hc'). unfold session_evolves.
    split; [etransitivity; eassumption | tauto].
Qed.

Lemma Forall2_session_evolves_refl q : Forall2 session_evolves q q.
Proof. induction q; constructor; [reflexivity | assumption]. Qed.

Lemma Forall2_session_evolves_trans q1 q2 q3 :
  Forall2 session_evolves q1 q2 -> Forall2 session_evolves q2 q3 ->
  Forall2 session_evolves q1 q3.
Proof.
  intros H12. revert q3. induction H12; intros q3 H23; inversion H23; subst; constructor.
  - etransitivity; eassumption.
  - auto.
Qed.

#[global] Instance steady_preorder : PreOrder steady.
Proof.
  split.
  - intros g. unfold steady. split; [apply Forall2_session_evolves_refl | lia].
  - intros g1 g2 g3 (Ha & Hb & Hc) (Ha' & Hb' & Hc'). unfold steady.
    split; [eapply Forall2_session_evolves_trans; eassumption | lia].
Qed.

#[global] Instance evolves_preorder : PreOrder evolves.
Proof.
  split.
  - intros g. unfold evolves. split; [|lia].
    exists (registry g), []. rewrite app_nil_r. split; [reflexivity|].
    apply Forall2_session_evolves_refl.
  - intros g1 g2 g3 ((q1 & t1 & E1 & F1) & Hb & Hc) ((q2 & t2 & E2 & F2) & Hb' & Hc').
    unfold evolves. split; [|lia].
    rewrite E1 in F2. apply Forall2_app_inv_l in F2 as (qa & qb & Fa & Fb & ->).
    exists qa, (qb ++ t2). split; [rewrite E2, app_assoc; reflexivity|].
    eapply Forall2_session_evolves_trans; eassumption.
Qed.

Lemma steady_evolves g g' : steady g g' -> evolves g g'.
Proof.
  intros (Ha & Hb & Hc). split; [|lia].
  exists (registry g'), []. rewrite app_nil_r. auto.
Qed.

Lemma steady_registry_size g g' : steady g g' -> registry_size g' = registry_size g.
Proof.
  intros (Ha & _). apply Forall2_length in Ha.
  unfold registry in Ha. unfold registry_size.
  destruct (screen_video_queue g), (screen_video_queue g'); simpl in *; lia.
Qed.

Lemma steady_write_session g index k s s' :
  session_at g index = inr (k, s) -> session_evolves s s' ->
  steady g (write_session k s' g).
Proof.
  intros Hs Hev. apply session_at_lookup in Hs as (q & Eq & _ & Ek).
  unfold steady, write_session, registry, frame_counter, video_counter.
  rewrite Eq. simpl. split; [|lia].
  apply Forall2_same_length_lookup. split; [rewrite length_insert; reflexivity|].
  intros i x y Hx Hy. destruct (decide (i = k)) as [->|Hne].
  - rewrite list_lookup_insert_eq in Hy by (eapply lookup_lt_Some; eassumption).
    congruence.
  - rewrite list_lookup_insert_ne in Hy by congruence.
    assert (x = y) as -> by congruence. reflexivity.
Qed.

Lemma steady_set_fs g f : steady g (set_fs f g).
Proof.
  unfold steady. split; [apply Forall2_session_evolves_refl|].
  unfold frame_counter, video_counter. simpl. lia.
Qed.

Lemma steady_set_g_screenshots_index g i :
  frame_counter g <= i -> steady g (set_g_screenshots_index (Some i) g).
Proof.
  intros Hi. unfold steady. split; [apply Forall2_session_evolves_refl|].
  unfold frame_counter, video_counter in *. simpl. lia.
Qed.

Lemma steady_set_g_video_index g i :
  video_counter g <= i -> steady g (set_g_video_index (Some i) g).
Proof.
  intros Hi. unfold steady. split; [apply Forall2_session_evolves_refl|].
  unfold frame_counter, video_counter in *. simpl. lia.
Qed.

Lemma evolves_append g s :
  evolves g (set_screen_video_queue (Some (registry g ++ [s])) g).
Proof.
  unfold evolves. split; [|unfold frame_counter, video_counter; simpl; lia].
  exists (registry g), [s]. split; [reflexivity | apply Forall2_session_evolves_refl].
Qed.

(** ** Screen Record Start *)

Lemma capture_screenshots_run filename g :
  capture_screenshots filename g =
  (Return (Z.of_nat (registry_size g)),
   set_screen_video_queue (Some (registry g ++ [fresh_session])) g,
   [LogInfo (MsgStart (Z.of_nat (registry_size g)));
    ThreadStart (Z.of_nat (registry_size g)) filename]).
Proof.
  unfold capture_screenshots, get_queue, registry_size, registry, fresh_session.
  unfold_m.
  destruct (screen_video_queue g) as [q|] eqn:Eq; cbn; rewrite ?Eq; cbn;
    rewrite ?length_app; cbn; repeat f_equal; lia.
Qed.

Lemma keeps_capture_screenshots filename : keeps evolves (capture_screenshots filename).
Proof.
  intros g r g' t. rewrite capture_screenshots_run. intros E. inversion E; subst.
  apply evolves_append.
Qed.

Lemma start_recordings_run calls : forall g,
  (forall c, c ∈ calls -> forall g, steady g (c.2 g)) ->
  exists g' t,
    start_recordings calls g =
      (Return (Z.of_nat <$> seq (registry_size g) (length calls)), g', t) /\
    registry_size g' = (registry_size g + length calls)%nat.
Proof.
  induction calls as [|[filename others] rest IH]; intros g Hothers.
  - exists g, []. split; [reflexivity | simpl; lia].
  - assert (Hsize : registry_size
              (others (set_screen_video_queue (Some (registry g ++ [fresh_session])) g))
            = S (registry_size g)).
    { rewrite (steady_registry_size _ _ (Hothers (filename, others) ltac:(left) _)).
      unfold registry_size, registry. simpl. rewrite length_app. simpl.
      destruct (screen_video_queue g); simpl; lia. }
    destruct (IH (others (set_screen_video_queue (Some (registry g ++ [fresh_session])) g)))
      as (g' & t & Erun & Esize).
    { intros c Hc. apply Hothers. right. exact Hc. }
    eexists g', _. split.
    + cbn [start_recordings]. rewrite run_bind, capture_screenshots_run.
      unfold_m. rewrite Erun. rewrite Hsize. reflexivity.
    + rewrite Esize, Hsize. simpl. lia.
Qed.

(** ** Path allocation *)

Section PathFacts.
Context `{Platform}.

Lemma next_path_index_le fuel g directory filename : forall index,
  index <= (next_path fuel g directory filename index).2.
Proof.
  induction fuel as [|fuel IH]; intros index; simpl; [lia|].
  destruct (str_format filename (index + 1)) as [formatted|]; simpl; [|lia].
  destruct (String.eqb formatted filename || negb (path_exists g (path_join directory formatted)));
    simpl; [lia|].
  specialize (IH (index + 1)). lia.
Qed.

Lemma next_path_index_lt fuel g directory filename index :
  fuel <> O -> index < (next_path fuel g directory filename index).2.
Proof.
  destruct fuel as [|fuel]; [congruence|]. intros _. simpl.
  destruct (str_format filename (index + 1)) as [formatted|]; simpl; [|lia].
  destruct (String.eqb formatted filename || negb (path_exists g (path_join directory formatted)));
    simpl; [lia|].
  pose proof (next_path_index_le fuel g directory filename (index + 1)). lia.
Qed.

Lemma _get_screenshot_path_run fuel filename g :
  _get_screenshot_path fuel filename g =
  ((next_path fuel g (screenshot_directory g) (replace_slash os_sep filename) 0).1, g, []).
Proof. reflexivity. Qed.

Lemma _get_video_image_path_run fuel filename g :
  _get_video_image_path fuel filename g =
  let '(r, index) := next_path fuel g (screenshot_directory g)
                       (replace_slash os_sep filename) (frame_counter g) in
  (r, set_g_screenshots_index (Some index) g, []).
Proof.
  unfold _get_video_image_path, frame_counter, lift_outcome. unfold_m.
  destruct (next_path _ _ _ _ _) as [r index]. cbn. destruct r; reflexivity.
Qed.

Lemma _get_video_path_run fuel filename g :
  _get_video_path fuel filename g =
  let '(r, index) := next_path fuel g (screenshot_directory g)
                       (replace_slash os_sep filename) (video_counter g) in
  (r, set_g_video_index (Some index) g, []).
Proof.
  unfold _get_video_path, video_counter, lift_outcome. unfold_m.
  destruct (next_path _ _ _ _ _) as [r index]. cbn. destruct r; reflexivity.
Qed.

End PathFacts.

(** ** What every keyword but a start keeps *)

Ltac keep_step :=
  lazymatch goal with
  | |- keeps _ (_ ≫= _) => apply keeps_bind; [|intros ?]
  | |- keeps _ (ret _) => apply keeps_ret
  | |- keeps _ (raise _) => apply keeps_raise
  | |- keeps _ diverge => apply keeps_diverge
  | |- keeps _ get => apply keeps_get
  | |- keeps _ (emit _) => apply keeps_emit
  | |- keeps _ (info _) => apply keeps_emit
  | |- keeps _ (lift_outcome _) => apply keeps_lift_outcome
  | |- keeps _ (lift_exn _) => apply keeps_lift_exn
  | |- keeps _ (get_session _) => apply keeps_get_session
  | |- keeps _ (sleep _) => apply keeps_sleep_while; intros; reflexivity
  | |- keeps _ (try_except _ _) => apply keeps_try_except
  | |- keeps _ (match ?x with _ => _ end) => destruct x eqn:?
  end.

Section Steady.
Context `{Platform} {R : relation Globals} `{!PreOrder R}.
Hypothesis steady_R : forall g g', steady g g' -> R g g'.

Lemma keeps_update_evolving index f :
  (forall s, session_evolves s (f s)) -> keeps R (update_session index f).
Proof.
  intros Hf. apply keeps_update_session. intros g k s Hs.
  eapply steady_R, steady_write_session; [exact Hs | apply Hf].
Qed.

Lemma append_frame_evolves p s : session_evolves s (append_frame p s).
Proof. unfold session_evolves. simpl. split; [apply prefix_app_r; reflexivity | tauto]. Qed.

Lemma set_elapsedSeconds_evolves t s : session_evolves s (set_elapsedSeconds t s).
Proof. unfold session_evolves. simpl. split; [reflexivity | tauto]. Qed.

Lemma set_recording_false_evolves s : session_evolves s (set_recording false s).
Proof. unfold session_evolves. simpl. split; [reflexivity | split; [discriminate | tauto]]. Qed.

Lemma set_finished_true_evolves s : session_evolves s (set_finished true s).
Proof. unfold session_evolves. simpl. split; [reflexivity | tauto]. Qed.

Lemma keeps__get_screenshot_path fuel filename : keeps R (_get_screenshot_path fuel filename).
Proof.
  intros g r g' t. rewrite _get_screenshot_path_run. intros E. inversion E; subst. reflexivity.
Qed.

Lemma keeps__get_video_image_path fuel filename :
  keeps R (_get_video_image_path fuel filename).
Proof.
  intros g r g' t. rewrite _get_video_image_path_run.
  pose proof (next_path_index_le fuel g (screenshot_directory g)
                (replace_slash os_sep filename) (frame_counter g)) as Hle.
  destruct (next_path _ _ _ _ _) as [r' index]. intros E. inversion E; subst.
  apply steady_R, steady_set_g_screenshots_index. exact Hle.
Qed.

Lemma keeps__get_video_path fuel filename : keeps R (_get_video_path fuel filename).
Proof.
  intros g r g' t. rewrite _get_video_path_run.
  pose proof (next_path_index_le fuel g (screenshot_directory g)
                (replace_slash os_sep filename) (video_counter g)) as Hle.
  destruct (next_path _ _ _ _ _) as [r' index]. intros E. inversion E; subst.
  apply steady_R, steady_set_g_video_index. exact Hle.
Qed.

Lemma keeps__create_directory mk_ok path : keeps R (_create_directory mk_ok path).
Proof.
  unfold _create_directory. repeat keep_step.
  apply keeps_modify. intros g. apply steady_R, steady_set_fs.
Qed.

Lemma keeps_save_screenshot c path : keeps R (save_screenshot c path).
Proof.
  unfold save_screenshot. repeat keep_step.
  apply keeps_modify. intros g. apply steady_R, steady_set_fs.
Qed.

Lemma keeps_capture_page_screenshot fuel mk_ok c filename :
  keeps R (capture_page_screenshot fuel mk_ok c filename).
Proof.
  unfold capture_page_screenshot, _embed_to_log.
  repeat first [ apply keeps__get_screenshot_path | apply keeps__create_directory
               | apply keeps_save_screenshot | keep_step ].
Qed.

Lemma keeps_capture_once fuel index filename start_time a :
  keeps R (capture_once fuel index filename start_time a).
Proof.
  unfold capture_once.
  repeat first [ apply keeps__get_video_image_path | apply keeps__create_directory
               | apply keeps_save_screenshot
               | apply keeps_update_evolving;
                 first [ apply append_frame_evolves | apply set_elapsedSeconds_evolves ]
               | keep_step ].
Qed.

Lemma keeps_loop_step fuel index filename start_time a :
  keeps R (loop_step fuel index filename start_time a).
Proof.
  unfold loop_step.
  repeat first [ apply keeps_capture_once
               | apply keeps_update_evolving; apply set_finished_true_evolves
               | keep_step ].
Qed.

Lemma keeps_video_fps n t : keeps R (video_fps n t).
Proof. unfold video_fps. repeat keep_step. Qed.

Lemma keeps_write_frames frames : keeps R (write_frames frames).
Proof.
  unfold write_frames. keep_step; [keep_step|].
  induction (drop 1 frames) as [|p l IH]; simpl; repeat keep_step. exact IH.
Qed.

Lemma keeps_save_to_mp4 fuel index video_name count :
  keeps R (save_to_mp4 fuel index video_name count).
Proof.
  unfold save_to_mp4.
  repeat first [ apply keeps_video_fps | apply keeps__get_video_path
               | apply keeps_write_frames | keep_step ].
Qed.

Lemma keeps_wait_finishing others index :
  (forall k g, R g (others k g)) ->
  forall budget count, keeps R (wait_finishing others budget index count).
Proof.
  intros Hothers. induction budget as [|budget IH]; intros count; simpl;
    repeat first [ apply keeps_sleep_while; intros; apply Hothers | apply IH | keep_step ].
Qed.

Lemma keeps_stop_recording_and_save_to_mp4 others fuel index video_name :
  (forall k g, R g (others k g)) ->
  keeps R (stop_recording_and_save_to_mp4 others fuel index video_name).
Proof.
  intros Hothers. unfold stop_recording_and_save_to_mp4, checked_index.
  repeat first [ apply keeps_wait_finishing; exact Hothers | apply keeps_save_to_mp4
               | apply keeps_update_evolving; apply set_recording_false_evolves
               | keep_step ].
Qed.

End Steady.

(** ** Handles *)

Lemma registry_size_length g : registry_size g = length (registry g).
Proof. unfold registry_size, registry. destruct (screen_video_queue g); reflexivity. Qed.

Lemma evolves_lookup g g' h s :
  evolves g g' -> registry g !! h = Some s ->
  exists s', registry g' !! h = Some s' /\ session_evolves s s'.
Proof.
  intros ((q1 & tail & E & F) & _) Hs.
  destruct (Forall2_lookup_l _ _ _ _ _ F Hs) as (s' & Hs' & Hev).
  exists s'. split; [|exact Hev].
  rewrite E. apply lookup_app_l_Some. exact Hs'.
Qed.

(** C6: N sequential starts in a process that has recorded nothing return
    the handles 0, 1, ..., N-1 in call order, whatever the capture loops do in
    between; the handle a start returns is the position at which it appends
    the new session; and no keyword ever moves a session: under starts,
    passes of a capture loop, stops and page screenshots every session stays
    at its position and only evolves there. *)
Theorem start_handles_are_positions `{Platform} :
  (forall calls g,
     registry g = [] ->
     Forall (fun c => forall g, steady g (c.2 g)) calls ->
     exists g' t,
       start_recordings calls g = (Return (Z.of_nat <$> seq 0 (length calls)), g', t)) /\
  (forall filename g,
     exists g' t,
       capture_screenshots filename g = (Return (Z.of_nat (length (registry g))), g', t) /\
       registry g' = registry g ++ [fresh_session]) /\
  (forall g g' h s,
     evolves g g' -> registry g !! h = Some s ->
     exists s', registry g' !! h = Some s' /\ session_evolves s s') /\
  (forall filename, keeps evolves (capture_screenshots filename)) /\
  (forall fuel index filename start_time a,
     keeps evolves (loop_step fuel index filename start_time a)) /\
  (forall others fuel index video_name,
     (forall k g, evolves g (others k g)) ->
     keeps evolves (stop_recording_and_save_to_mp4 others fuel index video_name)) /\
  (forall fuel mk_ok c filename,
     keeps evolves (capture_page_screenshot fuel mk_ok c filename)).
Proof.
  split; [|split; [|split; [|split; [|split; [|split]]]]].
  - intros calls g Hg Hothers.
    destruct (start_recordings_run calls g) as (g' & t & E & _).
    { intros c Hc. rewrite Forall_forall in Hothers. apply Hothers, Hc. }
    exists g', t. rewrite E. unfold registry_size. unfold registry in Hg.
    destruct (screen_video_queue g); [subst|]; reflexivity.
  - intros filename g. eexists _, _. rewrite capture_screenshots_run.
    rewrite registry_size_length. split; reflexivity.
  - intros g g' h s. apply evolves_lookup.
  - apply keeps_capture_screenshots.
  - intros. apply keeps_loop_step, steady_evolves.
  - intros. apply keeps_stop_recording_and_save_to_mp4; [apply steady_evolves | assumption].
  - intros. apply keeps_capture_page_screenshot, steady_evolves.
Qed.

Lemma start_handles_are_positions_witness :
  exists g' t,
    start_recordings [("a-{index}.png", id); ("b-{index}.png", id); ("c.png", id)] no_browser
    = (Return [0; 1; 2], g', t).
Proof.
  apply (proj1 (@start_handles_are_positions Posix.platform)
           [("a-{index}.png", id); ("b-{index}.png", id); ("c.png", id)] no_browser).
  - reflexivity.
  - repeat (apply List.Forall_cons; [intros g; reflexivity|]). apply List.Forall_nil.
Defined.

(** ** Start without a browser *)

(** C2: run in a process where no browser is open, [Screen Record Start]
    still appends a session, starts the capture thread and returns handle 0,
    whereas [Capture Page Screenshot] in the same state logs, changes nothing
    and returns [None]. *)
Theorem start_without_browser_registers :
  drivers_current no_browser = false /\
  capture_screenshots "screenshots-{index}.png" no_browser =
    (Return 0,
     set_screen_video_queue (Some [fresh_session]) no_browser,
     [LogInfo (MsgStart 0); ThreadStart 0 "screenshots-{index}.png"]) /\
  capture_page_screenshot (H := Posix.platform) 1 true NotSaved
      "selenium-screenshot-{index}.png" no_browser =
    (Return None, no_browser, [LogInfo MsgNoBrowser]).
Proof. repeat split. Qed.

(** ** The path found by the allocation loop *)

Section PathSearch.
Context `{Platform}.



End PathSearch.





(** ** The counters *)

Section Counters.
Context `{Platform}.

Lemma next_path_return fuel g directory filename : forall index path k,
  next_path fuel g directory filename index = (Return path, k) ->
  exists s, str_format filename k = Some s /\ path = path_join directory s.
Proof.
  induction fuel as [|fuel IH]; intros index path k; simpl; [discriminate|].
  destruct (str_format filename (index + 1)) as [formatted|] eqn:Ef; [|discriminate].
  destruct (String.eqb formatted filename || negb (path_exists g (path_join directory formatted))).
  - intros E. inversion E; subst. eauto.
  - apply IH.
Qed.

Lemma _get_video_image_path_counter fuel filename g r g' t :
  fuel <> O ->
  _get_video_image_path fuel filename g = (r, g', t) ->
  frame_counter g < frame_counter g' /\
  g_screenshots_index g' = Some (frame_counter g') /\
  video_counter g' = video_counter g /\
  forall path, r = Return path ->
    exists s, str_format (replace_slash os_sep filename) (frame_counter g') = Some s /\
              path = path_join (screenshot_directory g) s.
Proof.
  intros Hfuel. rewrite _get_video_image_path_run.
  pose proof (next_path_index_lt fuel g (screenshot_directory g)
                (replace_slash os_sep filename) (frame_counter g) Hfuel) as Hlt.
  destruct (next_path _ _ _ _ _) as [r' k] eqn:En. intros E. inversion E; subst.
  repeat split; try assumption.
  intros path ->. eapply next_path_return. exact En.
Qed.

Lemma _get_video_path_counter fuel filename g r g' t :
  fuel <> O ->
  _get_video_path fuel filename g = (r, g', t) ->
  video_counter g < video_counter g' /\
  g_video_index g' = Some (video_counter g') /\
  frame_counter g' = frame_counter g /\
  forall path, r = Return path ->
    exists s, str_format (replace_slash os_sep filename) (video_counter g') = Some s /\
              path = path_join (screenshot_directory g) s.
Proof.
  intros Hfuel. rewrite _get_video_path_run.
  pose proof (next_path_index_lt fuel g (screenshot_directory g)
                (replace_slash os_sep filename) (video_counter g) Hfuel) as Hlt.
  destruct (next_path _ _ _ _ _) as [r' k] eqn:En. intros E. inversion E; subst.
  repeat split; try assumption.
  intros path ->. eapply next_path_return. exact En.
Qed.

End Counters.

(** C8, as the code has it: there are two persistent counters, one for
    recording frames and one for finished videos.  Each counts from 0 while
    unbound, is incremented before each use, and is left by an allocation at
    the value the returned path was formatted with; allocating for one
    purpose does not touch the counter of the other; no keyword ever lowers
    either of them, so two successive allocations for the same purpose use
    strictly increasing values.  The index of the plain screenshot path is a
    local variable: every call searches from 0 again and leaves the globals
    as they were. *)
Theorem persistent_counters_increase `{Platform} :
  (forall fuel filename g r g' t,
     fuel <> O ->
     _get_video_image_path fuel filename g = (r, g', t) ->
     frame_counter g < frame_counter g' /\
     g_screenshots_index g' = Some (frame_counter g') /\
     video_counter g' = video_counter g /\
     forall path, r = Return path ->
       exists s, str_format (replace_slash os_sep filename) (frame_counter g') = Some s /\
                 path = path_join (screenshot_directory g) s) /\
  (forall fuel filename g r g' t,
     fuel <> O ->
     _get_video_path fuel filename g = (r, g', t) ->
     video_counter g < video_counter g' /\
     g_video_index g' = Some (video_counter g') /\
     frame_counter g' = frame_counter g /\
     forall path, r = Return path ->
       exists s, str_format (replace_slash os_sep filename) (video_counter g') = Some s /\
                 path = path_join (screenshot_directory g) s) /\
  (forall g, g_screenshots_index g = None -> frame_counter g = 0) /\
  (forall g, g_video_index g = None -> video_counter g = 0) /\
  (forall g g', evolves g g' ->
     frame_counter g <= frame_counter g' /\ video_counter g <= video_counter g') /\
  (forall filename, keeps evolves (capture_screenshots filename)) /\
  (forall fuel index filename start_time a,
     keeps evolves (loop_step fuel index filename start_time a)) /\
  (forall others fuel index video_name,
     (forall k g, evolves g (others k g)) ->
     keeps evolves (stop_recording_and_save_to_mp4 others fuel index video_name)) /\
  (forall fuel mk_ok c filename,
     keeps evolves (capture_page_screenshot fuel mk_ok c filename)) /\
  (forall fuel filename g,
     _get_screenshot_path fuel filename g =
       ((next_path fuel g (screenshot_directory g) (replace_slash os_sep filename) 0).1,
        g, [])).
Proof.
  split; [|split; [|split; [|split; [|split; [|split; [|split; [|split; [|split]]]]]]]].
  - apply @_get_video_image_path_counter.
  - apply @_get_video_path_counter.
  - intros g Hg. unfold frame_counter. rewrite Hg. reflexivity.
  - intros g Hg. unfold video_counter. rewrite Hg. reflexivity.
  - intros g g' (_ & Hf & Hv). auto.
  - apply keeps_capture_screenshots.
  - intros. apply keeps_loop_step, steady_evolves.
  - intros. apply keeps_stop_recording_and_save_to_mp4; [apply steady_evolves | assumption].
  - intros. apply keeps_capture_page_screenshot, steady_evolves.
  - intros. apply _get_screenshot_path_run.
Qed.

Lemma persistent_counters_increase_witness :
  frame_counter two_frames < frame_counter (set_g_screenshots_index (Some 3) two_frames).
Proof.
  apply (proj1 (@persistent_counters_increase Posix.platform)
           3%nat "frame-{index}.png" two_frames (Return "/out/frame-3.png") _ []).
  - discriminate.
  - reflexivity.
Defined.

(** C8 as stated fails for the plain screenshot index: two successive
    allocations, the second from the state the first one left, both format
    the path with the value 1. *)
Lemma plain_screenshot_index_restarts :
  _get_screenshot_path (H := Posix.platform) 3 "shot-{index}.png" two_frames =
    (Return "/out/shot-1.png", two_frames, []) /\
  (next_path (H := Posix.platform) 3 two_frames "/out" "shot-{index}.png" 0).2 = 1 /\
  ~ (forall fuel filename g r g' t r' g'' t',
       _get_screenshot_path (H := Posix.platform) fuel filename g = (r, g', t) ->
       _get_screenshot_path (H := Posix.platform) fuel filename g' = (r', g'', t') ->
       (next_path (H := Posix.platform) fuel g (screenshot_directory g)
          (replace_slash (@os_sep Posix.platform) filename) 0).2
       < (next_path (H := Posix.platform) fuel g' (screenshot_directory g')
            (replace_slash (@os_sep Posix.platform) filename) 0).2).
Proof.
  split; [reflexivity|]. split; [reflexivity|].
  intros Hclaim.
  specialize (Hclaim 3%nat "shot-{index}.png" two_frames _ _ _ _ _ _ eq_refl eq_refl).
  vm_compute in Hclaim. discriminate.
Qed.

(** ** One pass of the capture loop *)

Section LoopPass.
Context `{Platform}.

Lemma session_at_ext g g' index :
  screen_video_queue g' = screen_video_queue g -> session_at g' index = session_at g index.
Proof. unfold session_at. intros ->. reflexivity. Qed.

Lemma _create_directory_run mk_ok path g :
  _create_directory mk_ok path g =
  if path_exists g (path_dirname path) then (Return tt, g, [])
  else if mk_ok then (Return tt, set_fs (<[path_dirname path := Directory]> (fs g)) g, [])
  else (Raise OSError, g, []).
Proof.
  unfold _create_directory. unfold_m.
  destruct (path_exists g (path_dirname path)); [reflexivity|].
  destruct mk_ok; reflexivity.
Qed.

Lemma save_screenshot_run c path g :
  save_screenshot c path g =
  match c with
  | Saved img => (Return true, set_fs (<[path := ImageFile img]> (fs g)) g, [])
  | NotSaved => (Return false, g, [])
  | Crashed => (Raise WebDriverException, g, [])
  end.
Proof. destruct c; reflexivity. Qed.

Lemma prepare_frame_inv fuel filename mk_ok g r g1 t1 :
  prepare_frame fuel filename mk_ok g = (r, g1, t1) ->
  t1 = [] /\ screen_video_queue g1 = screen_video_queue g.
Proof.
  unfold prepare_frame. rewrite run_bind, _get_video_image_path_run.
  destruct (next_path _ _ _ _ _) as [[path|e|] index]; cbn.
  - rewrite run_bind, _create_directory_run.
    destruct (path_exists _ _); [|destruct mk_ok]; cbn; intros E; inversion E; auto.
  - intros E; inversion E; auto.
  - intros E; inversion E; auto.
Qed.

Lemma session_at_write g index k s s' :
  session_at g index = inr (k, s) ->
  session_at (write_session k s' g) index = inr (k, s').
Proof.
  intros Hs. apply session_at_lookup in Hs as (q & Eq & Ek & El).
  unfold session_at, write_session. rewrite Eq. simpl.
  unfold py_index in *. rewrite length_insert, Ek.
  rewrite list_lookup_insert_eq by (eapply lookup_lt_Some; eassumption). reflexivity.
Qed.

Lemma write_session_twice k s1 s2 g :
  write_session k s2 (write_session k s1 g) = write_session k s2 g.
Proof.
  unfold write_session. destruct (screen_video_queue g) as [q|] eqn:Eq; simpl.
  - rewrite list_insert_insert_eq. reflexivity.
  - rewrite Eq. reflexivity.
Qed.

Lemma loop_step_run fuel index filename start_time a g k s r g1 t1 :
  session_at g index = inr (k, s) ->
  recording s = true ->
  prepare_frame fuel filename (makedirs_ok a) g = (r, g1, t1) ->
  loop_step fuel index filename start_time a g =
  match r with
  | Diverge => (Diverge, g1, [])
  | Raise _ => (Return Looping, g1, [LogInfo MsgCannotCapture; Sleep 1])
  | Return path =>
      match shot a with
      | Saved img =>
          (Return Looping,
           write_session k
             {| elapsedSeconds := float_sub (now a) start_time; recording := true;
                framePaths := framePaths s ++ [path]; finished := finished s |}
             (set_fs (<[path := ImageFile img]> (fs g1)) g1), [])
      | NotSaved =>
          (Return Looping,
           write_session k (set_elapsedSeconds (float_sub (now a) start_time) s) g1, [])
      | Crashed => (Return Looping, g1, [LogInfo MsgCannotCapture; Sleep 1])
      end
  end.
Proof.
  intros Hs Hrec Hprep.
  destruct (prepare_frame_inv _ _ _ _ _ _ _ Hprep) as [-> Hq].
  pose proof (session_at_ext g g1 index Hq) as Hs1. rewrite Hs in Hs1.
  revert Hprep.
  unfold loop_step. rewrite run_bind, get_session_run, Hs. cbn. rewrite Hrec.
  unfold prepare_frame, capture_once, try_except.
  rewrite !run_bind, _get_video_image_path_run.
  destruct (next_path _ _ _ _ _) as [[path|e|] i]; cbn.
  2,3: intros E; inversion E; subst; reflexivity.
  rewrite !run_bind, _create_directory_run.
  destruct (path_exists _ _); [|destruct (makedirs_ok a)]; cbn.
  3: intros E; inversion E; subst; reflexivity.
  all: intros E; inversion E; subst; clear E.
  all: rewrite run_bind, save_screenshot_run; destruct (shot a) as [img| |]; cbn;
    try reflexivity.
  all: rewrite ?run_bind, ?update_session_run.
  all: rewrite ?(session_at_ext g) by reflexivity.
  all: rewrite ?Hs; cbn.
  all: rewrite ?update_session_run.
  all: try (erewrite session_at_write by (rewrite (session_at_ext g) by reflexivity; exact Hs)).
  all: rewrite ?(session_at_ext g) by reflexivity.
  all: rewrite ?Hs; cbn.
  all: rewrite ?write_session_twice.
  all: try reflexivity.
  all: unfold append_frame, set_elapsedSeconds; cbn; rewrite ?Hrec; try reflexivity.
Qed.

End LoopPass.

(** C9, as the code has it: in a pass of the capture loop that finds the
    recording switch on, once the frame path is allocated and its directory
    exists, a capture that succeeds appends the path and sets the recording
    time to now minus the start time; a capture that answers false appends
    nothing, still sets the recording time, and logs and sleeps nothing; a
    capture that raises, like a failure to allocate the path or to create the
    directory, is logged, followed by a sleep of one second, and leaves the
    session as it was.  In each case the loop goes on. *)
Theorem capture_loop_pass `{Platform} fuel index filename start_time a g k s r g1 t1 :
  session_at g index = inr (k, s) ->
  recording s = true ->
  prepare_frame fuel filename (makedirs_ok a) g = (r, g1, t1) ->
  session_at g1 index = inr (k, s) /\
  loop_step fuel index filename start_time a g =
  match r with
  | Diverge => (Diverge, g1, [])
  | Raise _ => (Return Looping, g1, [LogInfo MsgCannotCapture; Sleep 1])
  | Return path =>
      match shot a with
      | Saved img =>
          (Return Looping,
           write_session k
             {| elapsedSeconds := float_sub (now a) start_time; recording := true;
                framePaths := framePaths s ++ [path]; finished := finished s |}
             (set_fs (<[path := ImageFile img]> (fs g1)) g1), [])
      | NotSaved =>
          (Return Looping,
           write_session k
             {| elapsedSeconds := float_sub (now a) start_time; recording := true;
                framePaths := framePaths s; finished := finished s |} g1, [])
      | Crashed => (Return Looping, g1, [LogInfo MsgCannotCapture; Sleep 1])
      end
  end.
Proof.
  intros Hs Hrec Hprep. split.
  - destruct (prepare_frame_inv _ _ _ _ _ _ _ Hprep) as [_ Hq].
    rewrite (session_at_ext g g1 index Hq). exact Hs.
  - rewrite (loop_step_run _ _ _ _ _ _ _ _ _ _ _ Hs Hrec Hprep).
    unfold set_elapsedSeconds. rewrite Hrec. reflexivity.
Qed.

Lemma capture_loop_pass_witness :
  loop_step (H := Posix.platform) 3 0 "frame-{index}.png" (binary64 100 0)
    {| makedirs_ok := true; shot := Saved {| height := 600; width := 800; channels := 3 |};
       now := binary64 201 (-1) |} recording_one =
  (Return Looping,
   write_session 0
     {| elapsedSeconds := float_sub (binary64 201 (-1)) (binary64 100 0); recording := true;
        framePaths := ["/out/frame-1.png"]; finished := false |}
     (set_fs (<["/out/frame-1.png" :=
                ImageFile {| height := 600; width := 800; channels := 3 |}]>
                (fs recording_one))
        (set_g_screenshots_index (Some 1) recording_one)), []).
Proof.
  apply (@capture_loop_pass Posix.platform 3 0 "frame-{index}.png" (binary64 100 0)
           {| makedirs_ok := true; shot := Saved {| height := 600; width := 800; channels := 3 |};
              now := binary64 201 (-1) |} recording_one 0%nat fresh_session
           (Return "/out/frame-1.png") (set_g_screenshots_index (Some 1) recording_one) []).
  - reflexivity.
  - reflexivity.
  - reflexivity.
Defined.

(** C9 as stated fails when the driver answers false: the pass logs
    nothing and sleeps nothing although no frame was captured, and the
    recording time changes from 0 to 0.5. *)
Lemma failed_capture_is_silent :
  loop_step (H := Posix.platform) 3 0 "frame-{index}.png" (binary64 100 0)
    {| makedirs_ok := true; shot := NotSaved; now := binary64 201 (-1) |} recording_one =
  (Return Looping,
   write_session 0
     {| elapsedSeconds := binary64 1 (-1); recording := true;
        framePaths := []; finished := false |}
     (set_g_screenshots_index (Some 1) recording_one), []) /\
  float_eqb (binary64 1 (-1)) (elapsedSeconds fresh_session) = false.
Proof. split; reflexivity. Qed.

(** ** Screen Record Stop *)

Section StopRuns.
Context `{Platform}.

Lemma video_fps_run n t g :
  video_fps n t g =
  match int_of_float (float_div (float_of_int n) t) with
  | inl e => (Raise e, g, [])
  | inr fps => (Return (if (fps <? 1) || (n <? 5) then 1 else fps), g, [])
  end.
Proof. unfold video_fps. unfold_m. destruct (int_of_float _); reflexivity. Qed.

Lemma write_each_run g l g0 :
  foldr (fun p k => emit (WriterWrite p (imread g p));; k) (ret tt) l g0 =
  (Return tt, g0, (fun p => WriterWrite p (imread g p)) <$> l).
Proof.
  induction l as [|p l IH]; [reflexivity|].
  cbn [foldr]. rewrite run_bind. unfold emit at 1. rewrite IH. reflexivity.
Qed.

Lemma write_frames_run frames g :
  write_frames frames g =
  (Return tt, g, (fun p => WriterWrite p (imread g p)) <$> drop 1 frames).
Proof.
  unfold write_frames. rewrite run_bind. unfold get at 1. rewrite write_each_run. reflexivity.
Qed.

Lemma save_to_mp4_run fuel index video_name count g :
  save_to_mp4 fuel index video_name count g =
  match session_at g index with
  | inl e => (Raise e, g, [LogInfo (MsgWaited count)])
  | inr (_, s) =>
      let n := Z.of_nat (length (framePaths s)) in
      let logged := [LogInfo (MsgWaited count); LogInfo (MsgRecorded (elapsedSeconds s) n)] in
      if negb (float_eqb (elapsedSeconds s) float_zero) && (0 <? n) then
        match int_of_float (float_div (float_of_int n) (elapsedSeconds s)) with
        | inl e => (Raise e, g, logged)
        | inr fps =>
            match framePaths s with
            | [] => (Raise IndexError, g, logged)
            | first :: rest =>
                match imread g first with
                | None => (Raise AttributeError, g, logged)
                | Some img =>
                    let '(r, i) := next_path fuel g (screenshot_directory g)
                                     (replace_slash os_sep video_name) (video_counter g) in
                    let g' := set_g_video_index (Some i) g in
                    match r with
                    | Return path =>
                        (Return tt, g',
                         logged ++
                         WriterOpen path "mp4v" (if (fps <? 1) || (n <? 5) then 1 else fps)
                           (width img, height img)
                         :: ((fun p => WriterWrite p (imread g p)) <$> rest)
                         ++ [WriterRelease; LogInfo (MsgWriteDone index)])
                    | Raise e => (Raise e, g', logged)
                    | Diverge => (Diverge, g', logged)
                    end
                end
            end
        end
      else (Return tt, g, logged)
  end.
Proof.
  unfold save_to_mp4. unfold_m. cbn. rewrite get_session_run.
  destruct (session_at g index) as [e|[k s]]; cbn; [reflexivity|].
  destruct (negb (float_eqb (elapsedSeconds s) float_zero) && (0 <? Z.of_nat (length (framePaths s)))); cbn;
    [|reflexivity].
  rewrite video_fps_run.
  destruct (int_of_float _) as [e|fps]; cbn; [reflexivity|].
  destruct (framePaths s) as [|first rest] eqn:Ef; cbn; [reflexivity|].
  destruct (imread g first) as [img|]; cbn; [|reflexivity].
  rewrite _get_video_path_run.
  destruct (next_path _ _ _ _ _) as [[path|e|] i]; cbn; [|reflexivity|reflexivity].
  rewrite write_frames_run. cbn. rewrite drop_0. reflexivity.
Qed.

Lemma wait_finishing_run others budget index count g :
  wait_finishing others budget index count g =
  match session_at g index with
  | inl e => (Raise e, g, [])
  | inr (_, s) =>
      if finished s then (Return (Some count), g, [])
      else if count + 1 =? 5 then
        (Return None, others (Z.to_nat count) g, [Sleep 1; LogInfo (MsgCannotStop index)])
      else
        match budget with
        | O => (Diverge, others (Z.to_nat count) g, [Sleep 1])
        | S budget' =>
            let '(r, g', t) :=
              wait_finishing others budget' index (count + 1) (others (Z.to_nat count) g) in
            (r, g', Sleep 1 :: t)
        end
  end.
Proof.
  destruct budget; cbn [wait_finishing]; unfold_m; rewrite get_session_run;
    (destruct (session_at g index) as [e|[k s]]; cbn; [reflexivity|]);
    (destruct (finished s); cbn; [reflexivity|]);
    (destruct (count + 1 =? 5); cbn; [reflexivity|]).
  - reflexivity.
  - destruct (wait_finishing _ _ _ _ _) as [[r g'] t]. reflexivity.
Qed.

Lemma wait_finishing_spec others index g : forall budget c,
  (c + budget = 4)%nat ->
  let run := wait_finishing others budget index (Z.of_nat c) (poll_state others g c) in
  (exists j, (c <= j <= 4)%nat /\
     (forall m, (c <= m < j)%nat -> seen_finished (poll_state others g m) index = Some false) /\
     ((seen_finished (poll_state others g j) index = Some true /\
       run = (Return (Some (Z.of_nat j)), poll_state others g j, replicate (j - c) (Sleep 1))) \/
      (exists e, session_at (poll_state others g j) index = inl e /\
         run = (Raise e, poll_state others g j, replicate (j - c) (Sleep 1))))) \/
  ((forall m, (c <= m <= 4)%nat -> seen_finished (poll_state others g m) index = Some false) /\
   run = (Return None, poll_state others g 5,
          replicate (5 - c) (Sleep 1) ++ [LogInfo (MsgCannotStop index)])).
Proof.
  induction budget as [|budget IH]; intros c Hc run; subst run;
    rewrite wait_finishing_run;
    destruct (session_at (poll_state others g c) index) as [e|[k s]] eqn:Es.
  - left. exists c. split; [lia|]. split; [intros; lia|]. right. exists e.
    rewrite Nat.sub_diag. auto.
  - destruct (finished s) eqn:Ef.
    + left. exists c. split; [lia|]. split; [intros; lia|]. left.
      unfold seen_finished. rewrite Es, Ef, Nat.sub_diag. auto.
    + right. assert (c = 4%nat) as -> by lia. split.
      * intros m Hm. assert (m = 4%nat) as -> by lia. unfold seen_finished. rewrite Es, Ef. reflexivity.
      * reflexivity.
  - left. exists c. split; [lia|]. split; [intros; lia|]. right. exists e.
    rewrite Nat.sub_diag. auto.
  - destruct (finished s) eqn:Ef.
    + left. exists c. split; [lia|]. split; [intros; lia|]. left.
      unfold seen_finished. rewrite Es, Ef, Nat.sub_diag. auto.
    + destruct (Z.eqb_spec (Z.of_nat c + 1) 5) as [E5|_]; [lia|].
      rewrite Nat2Z.id.
      replace (Z.of_nat c + 1) with (Z.of_nat (S c)) by lia.
      change (others c (poll_state others g c)) with (poll_state others g (S c)).
      assert (Hc0 : seen_finished (poll_state others g c) index = Some false)
        by (unfold seen_finished; rewrite Es, Ef; reflexivity).
      destruct (IH (S c) ltac:(lia)) as [(j & Hj & Hbefore & Hat)|(Hall & Erun)].
      * left. exists j. split; [lia|]. split.
        { intros m Hm. destruct (decide (m = c)) as [->|]; [exact Hc0 | apply Hbefore; lia]. }
        replace (j - c)%nat with (S (j - S c)) by lia.
        destruct Hat as [(Hseen & ->)|(e & He & ->)]; [left | right; exists e]; auto.
      * right. split.
        { intros m Hm. destruct (decide (m = c)) as [->|]; [exact Hc0 | apply Hall; lia]. }
        rewrite Erun. replace (5 - c)%nat with (S (5 - S c)) by lia. reflexivity.
Qed.


Lemma checked_index_run a g :
  checked_index a g =
  match screen_video_queue g with
  | None => (Raise (RuntimeError "screen video queue is not init"), g, [])
  | Some q =>
      match a with
      | ArgNone =>
          (Raise (RuntimeError "index is null or invalid, please make sure index is correct"),
           g, [])
      | ArgBad => (Raise ValueError, g, [])
      | ArgInt i =>
          if Z.of_nat (length q) <=? i then
            (Raise (RuntimeError "index is null or invalid, please make sure index is correct"),
             g, [])
          else (Return i, g, [])
      end
  end.
Proof.
  unfold checked_index. unfold_m.
  destruct (screen_video_queue g) as [q|]; [|reflexivity].
  destruct a as [|i|]; try reflexivity.
  destruct (Z.of_nat (length q) <=? i); reflexivity.
Qed.

(** What a stop does once the index has passed the checks. *)
Lemma stop_run others fuel a video_name g i :
  checked_index a g = (Return i, g, []) ->
  stop_recording_and_save_to_mp4 others fuel a video_name g =
  match session_at g i with
  | inl e => (Raise e, g, [LogInfo (MsgStop i)])
  | inr (k, s) =>
      let '(w, g1, t1) :=
        wait_finishing others 4 i 0 (write_session k (set_recording false s) g) in
      match w with
      | Return None => (Return tt, g1, LogInfo (MsgStop i) :: t1)
      | Return (Some count) =>
          let '(r, g2, t2) := save_to_mp4 fuel i video_name count g1 in
          (r, g2, LogInfo (MsgStop i) :: t1 ++ t2)
      | Raise e => (Raise e, g1, LogInfo (MsgStop i) :: t1)
      | Diverge => (Diverge, g1, LogInfo (MsgStop i) :: t1)
      end
  end.
Proof.
  intros Hc. unfold stop_recording_and_save_to_mp4.
  rewrite run_bind, Hc. unfold_m. cbn -[wait_finishing]. rewrite update_session_run.
  destruct (session_at g i) as [e|[k s]]; [reflexivity|]. cbn -[wait_finishing].
  destruct (wait_finishing _ _ _ _ _) as [[[[count|]|e|] g1] t1]; cbn; try reflexivity.
  - destruct (save_to_mp4 _ _ _ _ _) as [[r g2] t2]. reflexivity.
  - rewrite app_nil_r. reflexivity.
Qed.

Lemma sleeps_app t1 t2 : sleeps (t1 ++ t2) = sleeps t1 ++ sleeps t2.
Proof. apply omap_app. Qed.

Lemma writer_opened_app t1 t2 : writer_opened (t1 ++ t2) = writer_opened t1 ++ writer_opened t2.
Proof. apply omap_app. Qed.

Lemma frames_written_app t1 t2 :
  frames_written (t1 ++ t2) = frames_written t1 ++ frames_written t2.
Proof. apply omap_app. Qed.

Lemma sleeps_replicate n : sleeps (replicate n (Sleep 1)) = replicate n 1.
Proof. induction n as [|n IH]; [reflexivity|]. cbn. unfold sleeps in IH. rewrite IH. reflexivity. Qed.

Lemma writer_opened_replicate n : writer_opened (replicate n (Sleep 1)) = [].
Proof. induction n as [|n IH]; [reflexivity|]. exact IH. Qed.

Lemma sleeps_writes g l : sleeps ((fun p => WriterWrite p (imread g p)) <$> l) = [].
Proof. induction l as [|p l IH]; [reflexivity|]. exact IH. Qed.

Lemma writer_opened_writes g l :
  writer_opened ((fun p => WriterWrite p (imread g p)) <$> l) = [].
Proof. induction l as [|p l IH]; [reflexivity|]. exact IH. Qed.

Lemma frames_written_writes g l :
  frames_written ((fun p => WriterWrite p (imread g p)) <$> l) = l.
Proof. induction l as [|p l IH]; [reflexivity|]. cbn. unfold frames_written in IH. rewrite IH. reflexivity. Qed.

(** What the events of the saving part can be. *)
Lemma save_to_mp4_inv fuel index video_name count g k s r g' t :
  session_at g index = inr (k, s) ->
  save_to_mp4 fuel index video_name count g = (r, g', t) ->
  sleeps t = [] /\
  (writer_opened t <> [] ->
     float_eqb (elapsedSeconds s) float_zero = false /\ framePaths s <> []) /\
  (float_eqb (elapsedSeconds s) float_zero = true \/ framePaths s = [] ->
     r = Return tt /\ g' = g /\
     t = [LogInfo (MsgWaited count);
          LogInfo (MsgRecorded (elapsedSeconds s) (Z.of_nat (length (framePaths s))))]).
Proof.
  intros Hs. rewrite save_to_mp4_run, Hs. cbn zeta.
  assert (Hskip : forall l : list event,
            writer_opened l = [] -> sleeps l = [] ->
            (Return tt, g, l) = (r, g', t) ->
            l = [LogInfo (MsgWaited count);
                 LogInfo (MsgRecorded (elapsedSeconds s) (Z.of_nat (length (framePaths s))))] ->
            sleeps t = [] /\
            (writer_opened t <> [] ->
               float_eqb (elapsedSeconds s) float_zero = false /\ framePaths s <> []) /\
            (float_eqb (elapsedSeconds s) float_zero = true \/ framePaths s = [] ->
               r = Return tt /\ g' = g /\
               t = [LogInfo (MsgWaited count);
                    LogInfo (MsgRecorded (elapsedSeconds s)
                               (Z.of_nat (length (framePaths s))))])).
  { intros l Hw Hsl E El. inversion E; subst r g' t. tauto. }
  assert (Hfail : forall (o : outcome unit) g1 (l : list event),
            writer_opened l = [] -> sleeps l = [] ->
            float_eqb (elapsedSeconds s) float_zero = false -> framePaths s <> [] ->
            (o, g1, l) = (r, g', t) ->
            sleeps t = [] /\
            (writer_opened t <> [] ->
               float_eqb (elapsedSeconds s) float_zero = false /\ framePaths s <> []) /\
            (float_eqb (elapsedSeconds s) float_zero = true \/ framePaths s = [] ->
               r = Return tt /\ g' = g /\
               t = [LogInfo (MsgWaited count);
                    LogInfo (MsgRecorded (elapsedSeconds s)
                               (Z.of_nat (length (framePaths s))))])).
  { intros o g1 l Hw Hsl E0 Ef E. inversion E; subst r g' t.
    split; [exact Hsl|]. split; [tauto|]. intros [E1|E1]; [congruence | tauto]. }
  destruct (float_eqb (elapsedSeconds s) float_zero) eqn:E0; cbn [negb andb].
  { intros E. eapply Hskip; [| |exact E|]; reflexivity. }
  destruct (framePaths s) as [|first rest] eqn:Ef.
  { intros E. eapply Hskip; [| |exact E|]; reflexivity. }
  assert (Hpos : (0 <? Z.of_nat (length (first :: rest))) = true) by (apply Z.ltb_lt; cbn; lia).
  rewrite Hpos.
  destruct (int_of_float _) as [e|fps].
  { intros E. eapply Hfail; [| | | |exact E]; [reflexivity..|discriminate]. }
  destruct (imread g first) as [img|].
  2:{ intros E. eapply Hfail; [| | | |exact E]; [reflexivity..|discriminate]. }
  destruct (next_path _ _ _ _ _) as [[path|e|] i].
  2,3: intros E; eapply Hfail; [| | | |exact E]; [reflexivity..|discriminate].
  intros E; inversion E; subst. split; [|split; [split; [reflexivity | discriminate] |]].
  - cbn. rewrite sleeps_app, sleeps_writes. reflexivity.
  - intros [E1|E1]; discriminate.
Qed.


Lemma poll_unique others g0 i (j1 j2 : nat) b1 b2 :
  (forall m, (m < j1)%nat -> seen_finished (poll_state others g0 m) i = Some false) ->
  seen_finished (poll_state others g0 j1) i = b1 ->
  (forall m, (m < j2)%nat -> seen_finished (poll_state others g0 m) i = Some false) ->
  seen_finished (poll_state others g0 j2) i = b2 ->
  b1 <> Some false -> b2 <> Some false -> j1 = j2.
Proof.
  intros H1 E1 H2 E2 N1 N2.
  destruct (Nat.lt_trichotomy j1 j2) as [Hlt|[Heq|Hgt]]; [|exact Heq|].
  - specialize (H2 _ Hlt). congruence.
  - specialize (H1 _ Hgt). congruence.
Qed.

End StopRuns.

(** ** The index of a stop *)

(** C5, as the code has it: a stop fails at once, raising to the caller,
    when the queue was never initialised, when the index is None, when
    [int()] rejects it, when it is at least the length of the queue, or when
    it is below minus that length.  In each case the globals are exactly as
    before, so no recording switch was touched, and no sleep was performed;
    the only event, in the last case, is the log line that announces the
    stop.  The indices from minus the length to -1 are not rejected. *)
Theorem stop_rejects_invalid_index `{Platform} others fuel a video_name g :
  screen_video_queue g = None \/ a = ArgNone \/ a = ArgBad \/
  (exists i, a = ArgInt i /\
     (Z.of_nat (registry_size g) <= i \/ i < - Z.of_nat (registry_size g))) ->
  exists e t,
    stop_recording_and_save_to_mp4 others fuel a video_name g = (Raise e, g, t) /\
    sleeps t = [] /\
    (t = [] \/ exists i, a = ArgInt i /\ t = [LogInfo (MsgStop i)]).
Proof.
  intros Hbad.
  destruct (screen_video_queue g) as [q|] eqn:Eq.
  2:{ eexists _, []. split; [|auto].
      apply run_bind_raise. rewrite checked_index_run, Eq. reflexivity. }
  destruct Hbad as [Hnone|[->|[->|(i & -> & Hi)]]]; [discriminate| | |].
  - eexists _, []. split; [|auto].
    apply run_bind_raise. rewrite checked_index_run, Eq. reflexivity.
  - eexists _, []. split; [|auto].
    apply run_bind_raise. rewrite checked_index_run, Eq. reflexivity.
  - unfold registry_size in Hi. rewrite Eq in Hi.
    destruct (Z.leb_spec (Z.of_nat (length q)) i) as [Hge|Hlt].
    + eexists _, []. split; [|auto].
      apply run_bind_raise. rewrite checked_index_run, Eq.
      destruct (Z.leb_spec (Z.of_nat (length q)) i); [reflexivity | lia].
    + exists IndexError, [LogInfo (MsgStop i)]. split; [|split; [reflexivity | eauto]].
      rewrite (stop_run _ _ _ _ _ i).
      * unfold session_at. rewrite Eq, py_index_out by lia. reflexivity.
      * rewrite checked_index_run, Eq.
        destruct (Z.leb_spec (Z.of_nat (length q)) i); [lia | reflexivity].
Qed.

Lemma stop_rejects_invalid_index_witness :
  exists e t,
    stop_recording_and_save_to_mp4 (H := Posix.platform) capture_loop_0 3 (ArgInt 1)
      "out-{index}.mp4" six_frames = (Raise e, six_frames, t) /\
    sleeps t = [] /\
    (t = [] \/ exists i, ArgInt 1 = ArgInt i /\ t = [LogInfo (MsgStop i)]).
Proof.
  apply (@stop_rejects_invalid_index Posix.platform).
  right. right. right. exists 1. split; [reflexivity|]. left. cbn. lia.
Defined.

(** C5 as stated fails for the index -1, which is not the position of any
    session: on a queue of one session the stop raises nothing; it switches
    the recording of session 0 off and sleeps five times before giving up. *)
Lemma stop_minus_one_is_not_rejected :
  ~ (0 <= -1 < Z.of_nat (registry_size six_frames)) /\
  stop_recording_and_save_to_mp4 (H := Posix.platform) nobody 3 (ArgInt (-1))
    "out-{index}.mp4" six_frames =
  (Return tt,
   write_session 0
     {| elapsedSeconds := binary64 3 0; recording := false;
        framePaths := ["/out/frame-1.png"; "/out/frame-2.png"; "/out/frame-3.png";
                       "/out/frame-4.png"; "/out/frame-5.png"; "/out/frame-6.png"];
        finished := false |} six_frames,
   [LogInfo (MsgStop (-1)); Sleep 1; Sleep 1; Sleep 1; Sleep 1; Sleep 1;
    LogInfo (MsgCannotStop (-1))]).
Proof. split; [cbn; lia | reflexivity]. Qed.

(** ** The bounded wait *)

(** C3: a stop whose index denotes a session sleeps at most five times,
    one second each.  When the five polls of the finished flag, the first
    right after the stop request and one after each of the first four sleeps,
    all read false, it sleeps a fifth time, logs that the screenshots cannot
    stop and returns normally, with no encoder opened.  An encoder is opened
    only if one of those five polls read true and the session then has a
    non-zero recording time and at least one frame; when a poll reads true
    and the recording time is zero or there is no frame, the stop returns
    after its two log lines and nothing else. *)
Theorem stop_wait_is_bounded `{Platform} others fuel video_name g i k s r g' t :
  session_at g i = inr (k, s) ->
  stop_recording_and_save_to_mp4 others fuel (ArgInt i) video_name g = (r, g', t) ->
  let g0 := write_session k (set_recording false s) g in
  let poll m := seen_finished (poll_state others g0 m) i in
  (exists n, (n <= 5)%nat /\ sleeps t = replicate n 1) /\
  ((forall m, (m <= 4)%nat -> poll m = Some false) ->
     r = Return tt /\ g' = poll_state others g0 5 /\
     t = LogInfo (MsgStop i) :: replicate 5 (Sleep 1) ++ [LogInfo (MsgCannotStop i)]) /\
  (writer_opened t <> [] ->
     exists j k' s',
       (j <= 4)%nat /\ (forall m, (m < j)%nat -> poll m = Some false) /\
       session_at (poll_state others g0 j) i = inr (k', s') /\
       finished s' = true /\
       float_eqb (elapsedSeconds s') float_zero = false /\ framePaths s' <> []) /\
  (forall j k' s',
     (j <= 4)%nat -> (forall m, (m < j)%nat -> poll m = Some false) ->
     session_at (poll_state others g0 j) i = inr (k', s') ->
     finished s' = true ->
     float_eqb (elapsedSeconds s') float_zero = true \/ framePaths s' = [] ->
     r = Return tt /\ g' = poll_state others g0 j /\
     t = LogInfo (MsgStop i) :: replicate j (Sleep 1) ++
         [LogInfo (MsgWaited (Z.of_nat j));
          LogInfo (MsgRecorded (elapsedSeconds s') (Z.of_nat (length (framePaths s'))))]).
Proof.
  intros Hs Hrun g0 poll.
  assert (Hc : checked_index (ArgInt i) g = (Return i, g, [])).
  { apply session_at_lookup in Hs as (q & Eq & Ek & _). apply py_index_lt in Ek as Hk.
    rewrite checked_index_run, Eq.
    destruct (Z.leb_spec (Z.of_nat (length q)) i) as [Hge|]; [|reflexivity].
    rewrite py_index_out in Ek by lia. discriminate. }
  rewrite (stop_run _ _ _ _ _ i Hc), Hs in Hrun. fold g0 in Hrun.
  pose proof (wait_finishing_spec others i g0 4 0 eq_refl) as Hwait.
  cbn zeta in Hwait. change (Z.of_nat 0) with 0 in Hwait.
  change (poll_state others g0 0) with g0 in Hwait.
  destruct Hwait as [(j & Hj & Hbefore & [(Hseen & Ew)|(e & He & Ew)])|(Hall & Ew)];
    rewrite Ew in Hrun; clear Ew; rewrite ?Nat.sub_0_r in Hrun.
  - (* finished seen at poll j *)
    unfold seen_finished in Hseen.
    destruct (session_at (poll_state others g0 j) i) as [e|[k1 s1]] eqn:Es1; [discriminate|].
    assert (Hfin : finished s1 = true) by congruence.
    destruct (save_to_mp4 fuel i video_name (Z.of_nat j) (poll_state others g0 j))
      as [[r2 g2] t2] eqn:Esave.
    inversion Hrun; subst r g' t; clear Hrun.
    destruct (save_to_mp4_inv _ _ _ _ _ _ _ _ _ _ Es1 Esave) as (Hsl & Hopen & Hskip).
    split; [|split; [|split]].
    + exists j. split; [lia|]. cbn. rewrite sleeps_app, sleeps_replicate, Hsl, app_nil_r.
      reflexivity.
    + intros Hall. specialize (Hall j ltac:(lia)). unfold poll, seen_finished in Hall.
      rewrite Es1 in Hall. congruence.
    + intros Hw. exists j, k1, s1. cbn in Hw.
      rewrite writer_opened_app, writer_opened_replicate in Hw.
      split; [lia|]. split; [intros m Hm; apply Hbefore; lia|].
      split; [exact Es1|]. split; [exact Hfin|]. apply Hopen. exact Hw.
    + intros j' k' s' Hj' Hbefore' Es' Hfin' Hdeg.
      assert (j = j') as <-.
      { apply (poll_unique others g0 i j j' (Some true) (Some true));
          [ intros m Hm; apply Hbefore; lia
          | unfold seen_finished; rewrite Es1, Hfin; reflexivity
          | exact Hbefore'
          | unfold seen_finished; rewrite Es', Hfin'; reflexivity
          | discriminate | discriminate ]. }
      assert (s' = s1) as -> by congruence.
      destruct (Hskip Hdeg) as (-> & -> & ->). auto.
  - (* the queue access fails at poll j *)
    inversion Hrun; subst r g' t; clear Hrun.
    split; [|split; [|split]].
    + exists j. split; [lia|]. cbn. apply sleeps_replicate.
    + intros Hall. specialize (Hall j ltac:(lia)). unfold poll, seen_finished in Hall.
      rewrite He in Hall. discriminate.
    + intros Hw. exfalso. apply Hw. cbn. apply writer_opened_replicate.
    + intros j' k' s' Hj' Hbefore' Es' Hfin' Hdeg. exfalso.
      assert (j = j') as <-.
      { apply (poll_unique others g0 i j j' None (Some true));
          [ intros m Hm; apply Hbefore; lia
          | unfold seen_finished; rewrite He; reflexivity
          | exact Hbefore'
          | unfold seen_finished; rewrite Es', Hfin'; reflexivity
          | discriminate | discriminate ]. }
      congruence.
  - (* never seen finished *)
    inversion Hrun; subst r g' t; clear Hrun.
    split; [|split; [|split]].
    + exists 5%nat. split; [lia|]. reflexivity.
    + intros _. auto.
    + intros Hw. exfalso. apply Hw. reflexivity.
    + intros j' k' s' Hj' Hbefore' Es' Hfin' Hdeg. exfalso.
      specialize (Hall j' ltac:(lia)). unfold seen_finished in Hall.
      rewrite Es', Hfin' in Hall. discriminate.
Qed.


Lemma stop_wait_is_bounded_witness :
  stop_recording_and_save_to_mp4 (H := Posix.platform) nobody 3 (ArgInt 0)
    "out-{index}.mp4" six_frames =
  (Return tt,
   poll_state nobody
     (write_session 0
        (set_recording false
           {| elapsedSeconds := binary64 3 0; recording := true;
              framePaths := ["/out/frame-1.png"; "/out/frame-2.png"; "/out/frame-3.png";
                             "/out/frame-4.png"; "/out/frame-5.png"; "/out/frame-6.png"];
              finished := false |}) six_frames) 5,
   LogInfo (MsgStop 0) :: replicate 5 (Sleep 1) ++ [LogInfo (MsgCannotStop 0)]).
Proof.
  destruct (stop_recording_and_save_to_mp4 (H := Posix.platform) nobody 3 (ArgInt 0)
              "out-{index}.mp4" six_frames) as [[r g'] t] eqn:Erun.
  destruct (@stop_wait_is_bounded Posix.platform nobody 3 "out-{index}.mp4" six_frames 0
              0%nat _ r g' t eq_refl Erun) as (_ & Hgiveup & _).
  destruct Hgiveup as (-> & -> & ->); [|reflexivity].
  intros m Hm.
  assert (m = 0 \/ m = 1 \/ m = 2 \/ m = 3 \/ m = 4)%nat as [->|[->|[->|[->| ->]]]] by lia;
    reflexivity.
Defined.

(** ** Video assembly *)

Section Assembly.
Context `{Platform}.

Lemma int_of_float_floor x q n :
  floor_of_float x = Some q ->
  exists z, int_of_float x = inr z /\
    (if (z <? 1) || (n <? 5) then 1 else z) = (if (q <? 1) || (n <? 5) then 1 else q).
Proof.
  destruct x as [sg|sg| |sg m e]; cbn; try discriminate.
  - intros E. inversion E; subst. eauto.
  - intros E. inversion E; subst; clear E. eexists. split; [reflexivity|].
    destruct sg.
    + destruct e as [|p|p].
      * replace (- (Z.pos m * 2 ^ 0)) with (Z.neg m * 2 ^ 0) by lia. reflexivity.
      * replace (- (Z.pos m * 2 ^ Z.pos p)) with (Z.neg m * 2 ^ Z.pos p) by lia. reflexivity.
      * assert (Hp : 0 < 2 ^ Z.pos p) by (apply Z.pow_pos_nonneg; lia).
        assert (H1 : 0 <= Z.pos m / 2 ^ Z.pos p) by (apply Z.div_pos; lia).
        assert (H2 : Z.neg m / 2 ^ Z.pos p < 1) by (apply Z.div_lt_upper_bound; lia).
        destruct (Z.ltb_spec (- (Z.pos m / 2 ^ Z.pos p)) 1); [|lia].
        destruct (Z.ltb_spec (Z.neg m / 2 ^ Z.pos p) 1); [|lia]. reflexivity.
    + destruct e; reflexivity.
Qed.

Lemma video_fps_spec n t fps g :
  spec_fps n t = Some fps -> video_fps n t g = (Return fps, g, []).
Proof.
  unfold spec_fps. rewrite video_fps_run.
  destruct (floor_of_float _) as [q|] eqn:Eq; [|discriminate]. cbn.
  destruct (int_of_float_floor _ _ n Eq) as (z & -> & Hz). rewrite Hz.
  intros E. inversion E. reflexivity.
Qed.

Lemma spec_fps_of_video_fps n t fps g r :
  video_fps n t g = (Return fps, g, r) -> spec_fps n t = Some fps.
Proof.
  unfold spec_fps. rewrite video_fps_run.
  destruct (float_div (float_of_int n) t) as [sg|sg| |sg m e] eqn:Ex; cbn; try discriminate.
  - intros E. inversion E. reflexivity.
  - pose proof (int_of_float_floor (S754_finite sg m e) _ n eq_refl) as (z & Ez & Hz).
    cbn in Ez. inversion Ez; subst z. cbn in Hz. rewrite <- Hz.
    intros E. inversion E. reflexivity.
Qed.


Lemma save_to_mp4_opened fuel index video_name count g k s r g' t path fourcc fps size :
  session_at g index = inr (k, s) ->
  save_to_mp4 fuel index video_name count g = (r, g', t) ->
  (path, fourcc, fps, size) ∈ writer_opened t ->
  spec_fps (Z.of_nat (length (framePaths s))) (elapsedSeconds s) = Some fps /\
  exists first img,
    head (framePaths s) = Some first /\ imread g first = Some img /\
    size = (width img, height img) /\
    frames_written t = drop 1 (framePaths s).
Proof.
  intros Hs. rewrite save_to_mp4_run, Hs. cbn zeta.
  destruct (negb _ && _); [|intros E; inversion E; subst; cbn; intros Hin; inversion Hin].
  destruct (int_of_float _) as [e|z] eqn:Ez;
    [intros E; inversion E; subst; cbn; intros Hin; inversion Hin|].
  destruct (framePaths s) as [|first rest] eqn:Ef;
    [intros E; inversion E; subst; cbn; intros Hin; inversion Hin|].
  destruct (imread g first) as [img|] eqn:Ei;
    [|intros E; inversion E; subst; cbn; intros Hin; inversion Hin].
  destruct (next_path _ _ _ _ _) as [[p|e|] i];
    [|intros E; inversion E; subst; cbn; intros Hin; inversion Hin..].
  intros E; inversion E; subst; clear E. cbn.
  rewrite writer_opened_app, writer_opened_writes, frames_written_app, frames_written_writes.
  cbn. rewrite app_nil_r. intros Hin. apply list_elem_of_singleton in Hin. inversion Hin; subst.
  split; [|exists first, img; rewrite drop_0; auto].
  change (S (length rest)) with (length (first :: rest)).
  eapply spec_fps_of_video_fps with (g := g). rewrite video_fps_run, Ez. reflexivity.
Qed.

Lemma save_to_mp4_success fuel index video_name count g k s fps first rest img path i :
  session_at g index = inr (k, s) ->
  float_eqb (elapsedSeconds s) float_zero = false ->
  framePaths s = first :: rest ->
  spec_fps (Z.of_nat (length (framePaths s))) (elapsedSeconds s) = Some fps ->
  imread g first = Some img ->
  next_path fuel g (screenshot_directory g) (replace_slash os_sep video_name)
    (video_counter g) = (Return path, i) ->
  save_to_mp4 fuel index video_name count g =
  (Return tt, set_g_video_index (Some i) g,
   [LogInfo (MsgWaited count);
    LogInfo (MsgRecorded (elapsedSeconds s) (Z.of_nat (length (framePaths s))));
    WriterOpen path "mp4v" fps (width img, height img)]
   ++ ((fun p => WriterWrite p (imread g p)) <$> rest)
   ++ [WriterRelease; LogInfo (MsgWriteDone index)]).
Proof.
  intros Hs E0 Ef Hfps Hi Hn.
  pose proof (video_fps_spec _ _ _ g Hfps) as Hv. rewrite video_fps_run in Hv.
  rewrite save_to_mp4_run, Hs. cbn zeta. rewrite E0. rewrite Ef in *. cbn [negb andb].
  assert (Hpos : (0 <? Z.of_nat (length (first :: rest))) = true) by (apply Z.ltb_lt; cbn; lia).
  rewrite Hpos.
  destruct (int_of_float _) as [e|z]; [discriminate|]. inversion Hv as [Hz].
  rewrite Hi, Hn. reflexivity.
Qed.

End Assembly.

(** C4: the frame rate computed for n frames and a recording time t is the
    floor of the float quotient n / t, replaced by 1 when that floor is below
    1 or when n is below 5; whenever the saving part of a stop opens an
    encoder it opens it with that rate, and it does open it, with that rate
    and the size of the first frame, once the recording time is not zero, the
    first frame is readable and the video path is found.  For 10 frames in 5.0
    seconds the rate is 2, for 3 frames in 10.0 seconds it is 1, for 1 frame
    in 100.0 seconds it is 1. *)
Theorem video_fps_is_clamped_floor `{Platform} :
  (forall n t q g,
     floor_of_float (float_div (float_of_int n) t) = Some q ->
     video_fps n t g = (Return (if (q <? 1) || (n <? 5) then 1 else q), g, [])) /\
  (forall fuel index video_name count g k s r g' t path fourcc fps size,
     session_at g index = inr (k, s) ->
     save_to_mp4 fuel index video_name count g = (r, g', t) ->
     (path, fourcc, fps, size) ∈ writer_opened t ->
     spec_fps (Z.of_nat (length (framePaths s))) (elapsedSeconds s) = Some fps) /\
  (forall fuel index video_name count g k s fps first rest img path i,
     session_at g index = inr (k, s) ->
     float_eqb (elapsedSeconds s) float_zero = false ->
     framePaths s = first :: rest ->
     spec_fps (Z.of_nat (length (framePaths s))) (elapsedSeconds s) = Some fps ->
     imread g first = Some img ->
     next_path fuel g (screenshot_directory g) (replace_slash os_sep video_name)
       (video_counter g) = (Return path, i) ->
     save_to_mp4 fuel index video_name count g =
     (Return tt, set_g_video_index (Some i) g,
      [LogInfo (MsgWaited count);
       LogInfo (MsgRecorded (elapsedSeconds s) (Z.of_nat (length (framePaths s))));
       WriterOpen path "mp4v" fps (width img, height img)]
      ++ ((fun p => WriterWrite p (imread g p)) <$> rest)
      ++ [WriterRelease; LogInfo (MsgWriteDone index)])) /\
  (forall g, video_fps 10 (binary64 5 0) g = (Return 2, g, [])) /\
  (forall g, video_fps 3 (binary64 10 0) g = (Return 1, g, [])) /\
  (forall g, video_fps 1 (binary64 100 0) g = (Return 1, g, [])).
Proof.
  split; [|split; [|split; [|split; [|split]]]].
  - intros n t q g Hq. apply video_fps_spec. unfold spec_fps. rewrite Hq. reflexivity.
  - intros fuel index video_name count g k s r g' t path fourcc fps size Hs Hrun Hin.
    eapply save_to_mp4_opened; eassumption.
  - intros. eapply save_to_mp4_success; eassumption.
  - intros g. reflexivity.
  - intros g. reflexivity.
  - intros g. reflexivity.
Qed.

Lemma video_fps_is_clamped_floor_witness :
  save_to_mp4 (H := Posix.platform) 3 0 "out-{index}.mp4" 1 six_frames =
  (Return tt, set_g_video_index (Some 1) six_frames,
   [LogInfo (MsgWaited 1); LogInfo (MsgRecorded (binary64 3 0) 6);
    WriterOpen "/out/out-1.mp4" "mp4v" 2 (800, 600);
    WriterWrite "/out/frame-2.png" (Some frame_image);
    WriterWrite "/out/frame-3.png" (Some frame_image);
    WriterWrite "/out/frame-4.png" (Some frame_image);
    WriterWrite "/out/frame-5.png" (Some frame_image);
    WriterWrite "/out/frame-6.png" (Some frame_image);
    WriterRelease; LogInfo (MsgWriteDone 0)]).
Proof.
  apply (proj1 (proj2 (proj2 (@video_fps_is_clamped_floor Posix.platform)))
           3%nat 0 "out-{index}.mp4" 1 six_frames 0%nat
           {| elapsedSeconds := binary64 3 0; recording := true;
              framePaths := ["/out/frame-1.png"; "/out/frame-2.png"; "/out/frame-3.png";
                             "/out/frame-4.png"; "/out/frame-5.png"; "/out/frame-6.png"];
              finished := false |}
           2 "/out/frame-1.png"
           ["/out/frame-2.png"; "/out/frame-3.png"; "/out/frame-4.png";
            "/out/frame-5.png"; "/out/frame-6.png"]
           frame_image "/out/out-1.mp4" 1);
    reflexivity.
Defined.

(** ** The frames of the video *)

Lemma save_to_mp4_frames_written `{Platform} fuel index video_name count g k s r g' t :
  session_at g index = inr (k, s) ->
  save_to_mp4 fuel index video_name count g = (r, g', t) ->
  writer_opened t <> [] ->
  frames_written t = drop 1 (framePaths s).
Proof.
  intros Hs Hrun Hw.
  destruct (writer_opened t) as [|[[[path fourcc] fps] size] l] eqn:Ew; [congruence|].
  destruct (save_to_mp4_opened fuel index video_name count g k s r g' t path fourcc fps size
              Hs Hrun) as (_ & first & img & _ & _ & _ & Hf).
  - rewrite Ew. left.
  - exact Hf.
Qed.

(** C1: a stop of handle 0, whose session holds the six frames frame-1 to
    frame-6 recorded in 3.0 seconds and whose capture loop ends during the
    first sleep, opens out-1.mp4 at 2 frames per second with the size of the
    first frame and writes five frames to it, frame-2 to frame-6 in order:
    frame-1 is read for its size and never written. *)
Theorem stop_leaves_out_first_frame :
  let '(r, g', t) :=
    stop_recording_and_save_to_mp4 (H := Posix.platform) capture_loop_0 3 (ArgInt 0)
      "out-{index}.mp4" six_frames in
  r = Return tt /\
  (framePaths <$> registry g') =
    [["/out/frame-1.png"; "/out/frame-2.png"; "/out/frame-3.png";
      "/out/frame-4.png"; "/out/frame-5.png"; "/out/frame-6.png"]] /\
  writer_opened t = [("/out/out-1.mp4", "mp4v", 2, (800, 600))] /\
  frames_written t =
    ["/out/frame-2.png"; "/out/frame-3.png"; "/out/frame-4.png";
     "/out/frame-5.png"; "/out/frame-6.png"] /\
  length (frames_written t) = 5%nat.
Proof. vm_compute. repeat split. Qed.

(** * Further properties *)

(** ** Set Screenshot Directory *)

Section Directory.
Context `{Platform} `{Host}.

Lemma set_screenshot_directory_run mk_ok path g :
  set_screenshot_directory mk_ok path g =
  if is_noney path then
    (Return (screenshot_root_directory g), set_screenshot_root_directory None g, [])
  else
    match path_abspath path with
    | inl e => (Raise e, g, [])
    | inr p =>
        if path_exists g (path_dirname p) then
          (Return (screenshot_root_directory g),
           set_screenshot_root_directory (Some p) g, [])
        else if mk_ok then
          (Return (screenshot_root_directory g),
           set_screenshot_root_directory (Some p)
             (set_fs (<[path_dirname p := Directory]> (fs g)) g), [])
        else (Raise OSError, g, [])
    end.
Proof.
  unfold set_screenshot_directory. rewrite run_bind.
  destruct (is_noney path); [reflexivity|].
  rewrite run_bind. unfold lift_exn.
  destruct (path_abspath path) as [e|p]; [reflexivity|].
  unfold ret at 1. cbn iota beta. rewrite run_bind, _create_directory_run.
  destruct (path_exists g (path_dirname p)); [reflexivity|].
  destruct mk_ok; reflexivity.
Qed.

Lemma path_exists_insert g p q x :
  path_exists g p = true -> path_exists (set_fs (<[q := x]> (fs g)) g) p = true.
Proof.
  unfold path_exists. cbn. rewrite !bool_decide_eq_true.
  intros [y Hy]. destruct (decide (q = p)) as [->|Hne].
  - rewrite lookup_insert_eq. eauto.
  - rewrite lookup_insert_ne by exact Hne. eauto.
Qed.

Lemma path_exists_inserted g q x : path_exists (set_fs (<[q := x]> (fs g)) g) q = true.
Proof. unfold path_exists. cbn. rewrite bool_decide_eq_true, lookup_insert_eq. eauto. Qed.

End Directory.

(** X1: Set Screenshot Directory emits nothing and returns the directory
    that was configured before.  For a none-like argument the configured
    directory becomes None and no file is touched; otherwise it becomes the
    absolute path of the argument, whose parent directory exists afterwards,
    and screenshots are then placed under that path unless it is the empty
    string.  When the absolute path cannot be computed or the parent cannot
    be created the keyword raises and the globals, the configured directory
    included, are exactly as before. *)
Theorem set_screenshot_directory_result `{Platform} `{Host} mk_ok path g r g' t :
  set_screenshot_directory mk_ok path g = (r, g', t) ->
  t = [] /\
  match r with
  | Return previous =>
      previous = screenshot_root_directory g /\
      if is_noney path then screenshot_root_directory g' = None /\ fs g' = fs g
      else exists p,
          path_abspath path = inr p /\
          screenshot_root_directory g' = Some p /\
          path_exists g' (path_dirname p) = true /\
          (p <> "" -> screenshot_directory g' = p)
  | Raise _ => g' = g
  | Diverge => False
  end.
Proof.
  rewrite set_screenshot_directory_run.
  assert (Hdir : forall p g1, screenshot_root_directory g1 = Some p -> p <> "" ->
                              screenshot_directory g1 = p).
  { intros p g1 E Hp. unfold screenshot_directory. rewrite E.
    apply String.eqb_neq in Hp. rewrite Hp. reflexivity. }
  destruct (is_noney path) eqn:En.
  { intros E; inversion E; subst. auto. }
  destruct (path_abspath path) as [e|p] eqn:Ea.
  { intros E; inversion E; subst. auto. }
  destruct (path_exists g (path_dirname p)) eqn:Ex; [|destruct mk_ok].
  - intros E; inversion E; subst. split; [reflexivity|]. split; [reflexivity|].
    exists p. split; [reflexivity|]. split; [reflexivity|]. split; [exact Ex|].
    apply Hdir. reflexivity.
  - intros E; inversion E; subst. split; [reflexivity|]. split; [reflexivity|].
    exists p. split; [reflexivity|]. split; [reflexivity|].
    split; [apply (path_exists_inserted g)|]. apply Hdir. reflexivity.
  - intros E; inversion E; subst. auto.
Qed.

Lemma set_screenshot_directory_result_witness :
  exists g',
    set_screenshot_directory (H := Posix.platform) (H0 := plain_host) true
      (Some "/new/shots") configured = (Return (Some "/shots"), g', []) /\
    screenshot_directory g' = "/new/shots" /\
    path_exists g' "/new" = true /\ path_exists g' "/new/shots" = false.
Proof.
  destruct (set_screenshot_directory (H := Posix.platform) (H0 := plain_host) true
              (Some "/new/shots") configured) as [[r g'] t] eqn:Erun.
  destruct (@set_screenshot_directory_result Posix.platform plain_host true
              (Some "/new/shots") configured r g' t Erun) as (-> & Hr).
  vm_compute in Erun. inversion Erun; subst r g'. clear Erun Hr.
  eexists. split; [reflexivity|]. repeat split.
Defined.

(** X2: the value Set Screenshot Directory returns restores the earlier
    configuration when it is passed back: provided the directory configured
    at first is None and None is none-like, or is a path that is not
    none-like, is its own absolute path and has a parent directory that
    exists or can be created, a second call with the returned value puts the
    configured directory back to what it was. *)
Theorem set_screenshot_directory_restores `{Platform} `{Host} mk_ok mk_ok' path g previous g1 t1 :
  set_screenshot_directory mk_ok path g = (Return previous, g1, t1) ->
  match screenshot_root_directory g with
  | None => is_noney None = true
  | Some d =>
      is_noney (Some d) = false /\ path_abspath (Some d) = inr d /\
      (path_exists g (path_dirname d) = true \/ mk_ok' = true)
  end ->
  exists g2,
    set_screenshot_directory mk_ok' previous g1 =
      (Return (screenshot_root_directory g1), g2, []) /\
    screenshot_root_directory g2 = screenshot_root_directory g.
Proof.
  intros Hrun Hroot.
  assert (Hprev : previous = screenshot_root_directory g /\
                  forall p, path_exists g p = true -> path_exists g1 p = true).
  { rewrite set_screenshot_directory_run in Hrun.
    destruct (is_noney path); [inversion Hrun; subst; auto|].
    destruct (path_abspath path) as [e|p]; [discriminate|].
    destruct (path_exists g (path_dirname p)); [inversion Hrun; subst; auto|].
    destruct mk_ok; [|discriminate]. inversion Hrun; subst. split; [reflexivity|].
    intros q Hq. apply (path_exists_insert g). exact Hq. }
  destruct Hprev as [-> Hfs]. rewrite set_screenshot_directory_run.
  destruct (screenshot_root_directory g) as [d|] eqn:Ed.
  - destruct Hroot as (-> & -> & Hparent).
    destruct (path_exists g1 (path_dirname d)) eqn:Ex; [eexists; split; reflexivity|].
    destruct Hparent as [Hp| ->]; [apply Hfs in Hp; congruence|].
    eexists; split; reflexivity.
  - rewrite Hroot. eexists; split; reflexivity.
Qed.

Lemma set_screenshot_directory_restores_witness :
  exists g1 g2,
    set_screenshot_directory (H := Posix.platform) (H0 := plain_host) true
      (Some "/new/shots") configured = (Return (Some "/shots"), g1, []) /\
    set_screenshot_directory (H := Posix.platform) (H0 := plain_host) true
      (Some "/shots") g1 = (Return (Some "/new/shots"), g2, []) /\
    screenshot_root_directory g2 = Some "/shots".
Proof.
  eexists. 
  destruct (@set_screenshot_directory_restores Posix.platform plain_host true true
              (Some "/new/shots") configured (Some "/shots") _ [] eq_refl)
    as (g2 & Hrun & Hroot).
  - cbn. split; [reflexivity|]. split; [reflexivity|]. right. reflexivity.
  - exists g2. split; [reflexivity|]. split; [exact Hrun | exact Hroot].
Defined.

(** ** Capture Page Screenshot *)

Section PageScreenshot.
Context `{Platform}.

Lemma next_path_found fuel g directory filename : forall index path k,
  next_path fuel g directory filename index = (Return path, k) ->
  index < k /\
  (forall j, index < j < k ->
     exists s, str_format filename j = Some s /\ s <> filename /\
               path_exists g (path_join directory s) = true) /\
  exists s, str_format filename k = Some s /\ path = path_join directory s /\
            (s <> filename -> path_exists g path = false).
Proof.
  induction fuel as [|fuel IH]; intros index path k; simpl; [discriminate|].
  destruct (str_format filename (index + 1)) as [formatted|] eqn:Ef; [|discriminate].
  destruct (String.eqb_spec formatted filename) as [->|Hne]; simpl.
  - intros E. inversion E; subst. split; [lia|]. split; [intros; lia|].
    exists filename. split; [exact Ef|]. split; [reflexivity | congruence].
  - destruct (path_exists g (path_join directory formatted)) eqn:Ex; simpl.
    + intros E. destruct (IH _ _ _ E) as (Hlt & Hbusy & Hk). split; [lia|]. split; [|exact Hk].
      intros j Hj. destruct (decide (j = index + 1)) as [->|]; [eauto | apply Hbusy; lia].
    + intros E. inversion E; subst. split; [lia|]. split; [intros; lia|].
      exists formatted. auto.
Qed.

Lemma capture_page_screenshot_run fuel mk_ok c filename g :
  capture_page_screenshot fuel mk_ok c filename g =
  if negb (drivers_current g) then (Return None, g, [LogInfo MsgNoBrowser])
  else
    match (next_path fuel g (screenshot_directory g) (replace_slash os_sep filename) 0).1 with
    | Return path =>
        let '(r1, g1, _) := _create_directory mk_ok path g in
        match r1 with
        | Return _ =>
            match c with
            | Saved img =>
                (Return (Some path), set_fs (<[path := ImageFile img]> (fs g1)) g1,
                 [LogInfo (MsgEmbed path 800)])
            | NotSaved =>
                (Raise (RuntimeError ("Failed to save screenshot '" +:+ path +:+ "'.")), g1, [])
            | Crashed => (Raise WebDriverException, g1, [])
            end
        | Raise e => (Raise e, g1, [])
        | Diverge => (Diverge, g1, [])
        end
    | Raise e => (Raise e, g, [])
    | Diverge => (Diverge, g, [])
    end.
Proof.
  unfold capture_page_screenshot. rewrite run_bind. unfold get at 1. cbn iota beta.
  destruct (negb (drivers_current g)); [reflexivity|].
  rewrite run_bind, _get_screenshot_path_run.
  destruct (next_path _ _ _ _ _).1 as [path|e|]; [|reflexivity|reflexivity].
  rewrite run_bind, _create_directory_run.
  destruct (path_exists g (path_dirname path)); [|destruct mk_ok; [|reflexivity]];
    rewrite run_bind, save_screenshot_run; destruct c; reflexivity.
Qed.

Lemma imread_insert_directory g q p :
  path_exists g q = false ->
  imread (set_fs (<[q := Directory]> (fs g)) g) p = imread g p.
Proof.
  unfold path_exists, imread. cbn. rewrite bool_decide_eq_false. intros Hq.
  destruct (decide (q = p)) as [->|Hne].
  - rewrite lookup_insert_eq. destruct (fs g !! p) eqn:E; [exfalso; eauto | reflexivity].
  - rewrite lookup_insert_ne by exact Hne. reflexivity.
Qed.

Lemma _create_directory_inv mk_ok path g r g1 t :
  _create_directory mk_ok path g = (r, g1, t) ->
  t = [] /\
  (forall p, imread g1 p = imread g p) /\
  (forall p, path_exists g p = true -> path_exists g1 p = true) /\
  screen_video_queue g1 = screen_video_queue g /\
  frame_counter g1 = frame_counter g /\ video_counter g1 = video_counter g /\
  match r with
  | Return _ => path_exists g1 (path_dirname path) = true
  | Raise e => e = OSError /\ g1 = g /\ mk_ok = false
  | Diverge => False
  end.
Proof.
  rewrite _create_directory_run.
  destruct (path_exists g (path_dirname path)) eqn:Ex; [|destruct mk_ok].
  - intros E; inversion E; subst. auto 10.
  - intros E; inversion E; subst. split; [reflexivity|].
    split; [intros p; apply imread_insert_directory; exact Ex|].
    split; [intros p; apply (path_exists_insert g)|].
    repeat split. apply (path_exists_inserted g).
  - intros E; inversion E; subst. auto 10.
Qed.

End PageScreenshot.

(** X3: when Capture Page Screenshot returns a path, a browser was open,
    the only event is the image row for that path at width 800, the file at
    the path holds the image the driver saved and its directory exists; the
    queue and both counters are untouched.  The path is the template formatted
    with some index k >= 1 under the screenshot directory, and when
    formatting changed the template (it has a placeholder) the path did not
    exist before the call, while every smaller index was taken: an existing
    file is never written over and k is the first free index. *)
Theorem capture_page_screenshot_fresh_path `{Platform} fuel mk_ok c filename g path g' t :
  capture_page_screenshot fuel mk_ok c filename g = (Return (Some path), g', t) ->
  drivers_current g = true /\
  t = [LogInfo (MsgEmbed path 800)] /\
  (exists img, c = Saved img /\ imread g' path = Some img) /\
  path_exists g' (path_dirname path) = true /\
  screen_video_queue g' = screen_video_queue g /\
  frame_counter g' = frame_counter g /\ video_counter g' = video_counter g /\
  exists k s,
    0 < k /\
    str_format (replace_slash os_sep filename) k = Some s /\
    path = path_join (screenshot_directory g) s /\
    (s <> replace_slash os_sep filename ->
       path_exists g path = false /\
       forall j, 0 < j < k ->
         exists s', str_format (replace_slash os_sep filename) j = Some s' /\
                    path_exists g (path_join (screenshot_directory g) s') = true).
Proof.
  rewrite capture_page_screenshot_run.
  destruct (drivers_current g); [|discriminate]. cbn [negb].
  destruct (next_path _ _ _ _ _) as [r0 k] eqn:En. cbn [fst].
  destruct r0 as [p|e|]; [|discriminate|discriminate].
  destruct (_create_directory mk_ok p g) as [[r1 g1] t1] eqn:Ec.
  destruct (_create_directory_inv _ _ _ _ _ _ Ec) as (_ & Him & Hex & Hq & Hf & Hv & Hr).
  destruct r1 as [[]|e|]; [|discriminate|discriminate].
  destruct c as [img| |]; [|discriminate|discriminate].
  intros E; inversion E; subst path g' t; clear E.
  destruct (next_path_found _ _ _ _ _ _ _ En) as (Hk & Hbusy & s & Hs & -> & Hfree).
  split; [reflexivity|]. split; [reflexivity|].
  split; [exists img; split; [reflexivity|];
          unfold imread; cbn; rewrite lookup_insert_eq; reflexivity|].
  split; [apply (path_exists_insert g1); exact Hr|].
  split; [exact Hq|]. split; [exact Hf|]. split; [exact Hv|].
  exists k, s. split; [exact Hk|]. split; [exact Hs|]. split; [reflexivity|].
  intros Hne. split; [apply Hfree, Hne|].
  intros j Hj. destruct (Hbusy j Hj) as (s' & Hs' & _ & Hex'). eauto.
Qed.

Lemma capture_page_screenshot_fresh_path_witness :
  exists g',
    capture_page_screenshot (H := Posix.platform) 3 true (Saved frame_image)
      "selenium-screenshot-{index}.png" configured =
      (Return (Some "/shots/selenium-screenshot-2.png"), g',
       [LogInfo (MsgEmbed "/shots/selenium-screenshot-2.png" 800)]) /\
    path_exists configured "/shots/selenium-screenshot-2.png" = false /\
    imread g' "/shots/selenium-screenshot-2.png" = Some frame_image.
Proof.
  eexists. split; [reflexivity|].
  destruct (@capture_page_screenshot_fresh_path Posix.platform 3 true (Saved frame_image)
              "selenium-screenshot-{index}.png" configured
              "/shots/selenium-screenshot-2.png" _ _ eq_refl)
    as (_ & _ & (img & Ei & Him) & _).
  inversion Ei; subst img. split; [reflexivity | exact Him].
Defined.

(** X4: when Capture Page Screenshot does not return a path, nothing is
    embedded in the log and no image is written or changed; the queue and the
    counters are untouched.  With no browser open it logs that and returns
    None, leaving the globals as they were.  Otherwise it raised: when the
    driver answered false, the exception is the RuntimeError that names the
    path chosen, unless the path could not be formatted or its directory
    could not be created. *)
Theorem capture_page_screenshot_failure `{Platform} fuel mk_ok c filename g r g' t :
  capture_page_screenshot fuel mk_ok c filename g = (r, g', t) ->
  (forall path, r <> Return (Some path)) ->
  (forall p, imread g' p = imread g p) /\
  screen_video_queue g' = screen_video_queue g /\
  frame_counter g' = frame_counter g /\ video_counter g' = video_counter g /\
  match r with
  | Return _ => drivers_current g = false /\ g' = g /\ t = [LogInfo MsgNoBrowser]
  | Raise e =>
      drivers_current g = true /\ t = [] /\
      (c = NotSaved ->
         e = FormatError \/ e = OSError \/
         exists path,
           (next_path fuel g (screenshot_directory g) (replace_slash os_sep filename) 0).1
             = Return path /\
           e = RuntimeError ("Failed to save screenshot '" +:+ path +:+ "'."))
  | Diverge => drivers_current g = true /\ t = [] /\ g' = g
  end.
Proof.
  rewrite capture_page_screenshot_run. intros Hrun Hnone.
  destruct (drivers_current g); cbn [negb] in Hrun.
  2:{ inversion Hrun; subst. auto 10. }
  destruct (next_path _ _ _ _ _) as [r0 k] eqn:En. cbn [fst] in *.
  destruct r0 as [p|e|].
  - destruct (_create_directory mk_ok p g) as [[r1 g1] t1] eqn:Ec.
    destruct (_create_directory_inv _ _ _ _ _ _ Ec) as (_ & Him & Hex & Hq & Hf & Hv & Hr).
    destruct r1 as [[]|e|]; [|inversion Hrun; subst..].
    + destruct c as [img| |]; inversion Hrun; subst.
      * exfalso. eapply Hnone. reflexivity.
      * repeat split; auto. intros _. right. right. exists p. auto.
      * repeat split; auto. discriminate.
    + destruct Hr as (-> & _). repeat split; auto.
    + destruct Hr.
  - inversion Hrun; subst. repeat split; auto. intros _.
    destruct fuel as [|fuel]; [discriminate|].
    left. revert En. generalize 0. induction (S fuel) as [|n IH]; intros i; cbn; [discriminate|].
    destruct (str_format _ (i + 1)); [|intros E; inversion E; reflexivity].
    destruct (_ || _); [discriminate | apply IH].
  - inversion Hrun; subst. auto 10.
Qed.

Lemma capture_page_screenshot_failure_witness :
  capture_page_screenshot (H := Posix.platform) 3 true NotSaved
    "selenium-screenshot-{index}.png" configured =
  (Raise (RuntimeError "Failed to save screenshot '/shots/selenium-screenshot-2.png'."),
   configured, []) /\
  drivers_current configured = true.
Proof.
  split; [reflexivity|].
  destruct (@capture_page_screenshot_failure Posix.platform 3 true NotSaved
              "selenium-screenshot-{index}.png" configured _ configured [] eq_refl)
    as (_ & _ & _ & _ & Hopen & _).
  - intros path. discriminate.
  - exact Hopen.
Defined.

(** ** The capture thread *)

Section Thread.
Context `{Platform}.

Lemma registry_write_session g index k s s' :
  session_at g index = inr (k, s) ->
  registry (write_session k s' g) = <[k := s']> (registry g).
Proof.
  intros Hs. apply session_at_lookup in Hs as (q & Eq & _ & _).
  unfold registry, write_session. rewrite Eq. reflexivity.
Qed.

Lemma registry_lookup_session g index k s :
  session_at g index = inr (k, s) -> registry g !! k = Some s.
Proof.
  intros Hs. apply session_at_lookup in Hs as (q & Eq & _ & Hk).
  unfold registry. rewrite Eq. exact Hk.
Qed.

Lemma registry_ext g g' :
  screen_video_queue g' = screen_video_queue g -> registry g' = registry g.
Proof. unfold registry. intros ->. reflexivity. Qed.

Lemma video_counter_write_session k s g :
  video_counter (write_session k s g) = video_counter g.
Proof. unfold write_session, video_counter. destruct (screen_video_queue g); reflexivity. Qed.

Lemma frame_counter_write_session k s g :
  frame_counter (write_session k s g) = frame_counter g.
Proof. unfold write_session, frame_counter. destruct (screen_video_queue g); reflexivity. Qed.

Lemma loop_step_ended fuel index filename start_time a g k s :
  session_at g index = inr (k, s) ->
  recording s = false ->
  loop_step fuel index filename start_time a g =
  (Return Ended, write_session k (set_finished true s) g, []).
Proof.
  intros Hs Hrec. unfold loop_step. rewrite run_bind, get_session_run, Hs. cbn iota beta.
  rewrite Hrec, run_bind, update_session_run, Hs. reflexivity.
Qed.

Lemma loop_step_raises fuel index filename start_time a g e :
  session_at g index = inl e ->
  loop_step fuel index filename start_time a g = (Raise e, g, []).
Proof.
  intros Hs. unfold loop_step. rewrite run_bind, get_session_run, Hs. reflexivity.
Qed.

Lemma prepare_frame_counters fuel filename mk_ok g r g1 t1 :
  prepare_frame fuel filename mk_ok g = (r, g1, t1) ->
  video_counter g1 = video_counter g /\ frame_counter g <= frame_counter g1.
Proof.
  unfold prepare_frame. rewrite run_bind, _get_video_image_path_run.
  pose proof (next_path_index_le fuel g (screenshot_directory g)
                (replace_slash os_sep filename) (frame_counter g)) as Hle.
  destruct (next_path _ _ _ _ _) as [[path|e|] index]; cbn in *.
  - rewrite run_bind, _create_directory_run.
    destruct (path_exists _ _); [|destruct mk_ok]; cbn; intros E; inversion E; subst; auto.
  - intros E; inversion E; subst; auto.
  - intros E; inversion E; subst; auto.
Qed.

(** What a pass of the loop does to the registry. *)
Lemma loop_step_effect fuel index filename start_time a g r g' t :
  loop_step fuel index filename start_time a g = (r, g', t) ->
  (exists e, session_at g index = inl e /\ r = Raise e /\ g' = g /\ t = []) \/
  exists k s s',
    session_at g index = inr (k, s) /\
    session_at g' index = inr (k, s') /\
    registry g' = <[k := s']> (registry g) /\
    video_counter g' = video_counter g /\
    ((recording s = false /\ s' = set_finished true s /\ r = Return Ended /\
      g' = write_session k s' g /\ t = []) \/
     (recording s = true /\ recording s' = true /\ finished s' = finished s /\
      framePaths s `prefix_of` framePaths s' /\
      (r = Return Looping \/ r = Diverge))).
Proof.
  intros Hrun. destruct (session_at g index) as [e|[k s]] eqn:Hs.
  { left. exists e. rewrite (loop_step_raises _ _ _ _ _ _ _ Hs) in Hrun.
    inversion Hrun; subst. auto. }
  right. exists k, s. destruct (recording s) eqn:Hrec.
  - destruct (prepare_frame fuel filename (makedirs_ok a) g) as [[r1 g1] t1] eqn:Hprep.
    destruct (capture_loop_pass _ _ _ start_time _ _ _ _ _ _ _ Hs Hrec Hprep) as (Hs1 & Hstep).
    destruct (prepare_frame_inv _ _ _ _ _ _ _ Hprep) as (_ & Hq).
    destruct (prepare_frame_counters _ _ _ _ _ _ _ Hprep) as (Hv & _).
    rewrite Hstep in Hrun.
    assert (Hsame : exists s', s' = s /\ session_at g1 index = inr (k, s') /\
                     registry g1 = <[k := s']> (registry g)).
    { exists s. split; [reflexivity|]. split; [exact Hs1|].
      rewrite (registry_ext g g1 Hq), list_insert_id; [reflexivity|].
      eapply registry_lookup_session; eassumption. }
    destruct r1 as [path|e|]; [destruct (shot a) as [img| |]|..];
      inversion Hrun; subst r g' t; clear Hrun.
    + eexists. split; [reflexivity|].
      split; [apply session_at_write with (s := s);
              rewrite (session_at_ext g1) by reflexivity; exact Hs1|].
      split; [erewrite registry_write_session
                by (rewrite (session_at_ext g1) by reflexivity; exact Hs1);
              rewrite (registry_ext g1) by reflexivity;
              rewrite (registry_ext g g1 Hq); reflexivity|].
      split; [rewrite video_counter_write_session; exact Hv|]. right. cbn.
      repeat split; auto. apply prefix_app_r. reflexivity.
    + eexists. split; [reflexivity|].
      split; [apply session_at_write with (s := s); exact Hs1|].
      split; [erewrite registry_write_session by exact Hs1;
              rewrite (registry_ext g g1 Hq); reflexivity|].
      split; [rewrite video_counter_write_session; exact Hv|].
      right. cbn. repeat split; auto.
    + destruct Hsame as (s' & -> & Hs' & Hreg). exists s.
      split; [reflexivity|]. split; [exact Hs'|]. split; [exact Hreg|].
      split; [exact Hv|]. right. repeat split; auto.
    + destruct Hsame as (s' & -> & Hs' & Hreg). exists s.
      split; [reflexivity|]. split; [exact Hs'|]. split; [exact Hreg|].
      split; [exact Hv|]. right. repeat split; auto.
    + destruct Hsame as (s' & -> & Hs' & Hreg). exists s.
      split; [reflexivity|]. split; [exact Hs'|]. split; [exact Hreg|].
      split; [exact Hv|]. right. repeat split; auto.
  - rewrite (loop_step_ended _ _ _ _ _ _ _ _ Hs Hrec) in Hrun.
    inversion Hrun; subst r g' t. exists (set_finished true s).
    split; [reflexivity|]. split; [eapply session_at_write; exact Hs|].
    split; [eapply registry_write_session; exact Hs|].
    split; [apply video_counter_write_session|].
    left. auto.
Qed.

End Thread.



(** ** More on Screen Record Stop *)

Section StopCases.
Context `{Platform}.

Lemma checked_index_valid g i k s :
  session_at g i = inr (k, s) -> checked_index (ArgInt i) g = (Return i, g, []).
Proof.
  intros Hs. apply session_at_lookup in Hs as (q & Eq & Ek & _).
  rewrite checked_index_run, Eq.
  destruct (Z.leb_spec (Z.of_nat (length q)) i) as [Hge|]; [|reflexivity].
  rewrite py_index_out in Ek by lia. discriminate.
Qed.

Lemma checked_index_inv a g r g1 t1 :
  checked_index a g = (r, g1, t1) ->
  g1 = g /\ t1 = [] /\
  match r with
  | Return i => a = ArgInt i
  | Raise _ => True
  | Diverge => False
  end.
Proof.
  rewrite checked_index_run.
  destruct (screen_video_queue g) as [q|]; [|intros E; inversion E; auto].
  destruct a as [|i|]; try (intros E; inversion E; auto; fail).
  destruct (Z.of_nat (length q) <=? i); intros E; inversion E; auto.
Qed.

(** The ways a stop can go once its index denotes a session. *)
Lemma stop_valid_cases others fuel video_name g i k s r g' t :
  session_at g i = inr (k, s) ->
  stop_recording_and_save_to_mp4 others fuel (ArgInt i) video_name g = (r, g', t) ->
  let g0 := write_session k (set_recording false s) g in
  (exists j k1 s1 r2 g2 t2,
     (j <= 4)%nat /\
     (forall m, (m < j)%nat -> seen_finished (poll_state others g0 m) i = Some false) /\
     session_at (poll_state others g0 j) i = inr (k1, s1) /\ finished s1 = true /\
     save_to_mp4 fuel i video_name (Z.of_nat j) (poll_state others g0 j) = (r2, g2, t2) /\
     r = r2 /\ g' = g2 /\ t = LogInfo (MsgStop i) :: replicate j (Sleep 1) ++ t2) \/
  (exists j e,
     (j <= 4)%nat /\ session_at (poll_state others g0 j) i = inl e /\
     r = Raise e /\ g' = poll_state others g0 j /\
     t = LogInfo (MsgStop i) :: replicate j (Sleep 1)) \/
  ((forall m, (m <= 4)%nat -> seen_finished (poll_state others g0 m) i = Some false) /\
   r = Return tt /\ g' = poll_state others g0 5 /\
   t = LogInfo (MsgStop i) :: replicate 5 (Sleep 1) ++ [LogInfo (MsgCannotStop i)]).
Proof.
  intros Hs Hrun g0.
  rewrite (stop_run _ _ _ _ _ i (checked_index_valid _ _ _ _ Hs)), Hs in Hrun.
  fold g0 in Hrun.
  pose proof (wait_finishing_spec others i g0 4 0 eq_refl) as Hwait.
  cbn zeta in Hwait. change (Z.of_nat 0) with 0 in Hwait.
  change (poll_state others g0 0) with g0 in Hwait.
  destruct Hwait as [(j & Hj & Hbefore & [(Hseen & Ew)|(e & He & Ew)])|(Hall & Ew)];
    rewrite Ew in Hrun; clear Ew; rewrite ?Nat.sub_0_r in Hrun.
  - left. unfold seen_finished in Hseen.
    destruct (session_at (poll_state others g0 j) i) as [e|[k1 s1]] eqn:Es1; [discriminate|].
    destruct (save_to_mp4 fuel i video_name (Z.of_nat j) (poll_state others g0 j))
      as [[r2 g2] t2] eqn:Esave.
    inversion Hrun; subst r g' t.
    exists j, k1, s1, r2, g2, t2. split; [lia|].
    split; [intros m Hm; apply Hbefore; lia|].
    split; [exact Es1|]. split; [congruence|]. split; [exact Esave|]. auto.
  - right. left. inversion Hrun; subst r g' t. exists j, e. split; [lia|]. auto.
  - right. right. inversion Hrun; subst r g' t.
    split; [intros m Hm; apply Hall; lia|]. repeat split.
Qed.

(** A stop that does not get to its wait raises and changes nothing. *)
Lemma stop_invalid_cases others fuel a video_name g r g' t :
  stop_recording_and_save_to_mp4 others fuel a video_name g = (r, g', t) ->
  (forall i k s, a = ArgInt i -> session_at g i <> inr (k, s)) ->
  exists e, r = Raise e /\ g' = g /\
            (t = [] \/ exists i, a = ArgInt i /\ t = [LogInfo (MsgStop i)]).
Proof.
  intros Hrun Hbad.
  destruct (checked_index a g) as [[rc gc] tc] eqn:Hc.
  destruct (checked_index_inv _ _ _ _ _ Hc) as (-> & -> & Ha).
  destruct rc as [i|e|]; [subst a| |destruct Ha].
  2:{ exists e. unfold stop_recording_and_save_to_mp4 in Hrun.
      rewrite (run_bind_raise _ _ _ _ _ _ Hc) in Hrun. inversion Hrun; subst. auto. }
  rewrite (stop_run _ _ _ _ _ i Hc) in Hrun.
  destruct (session_at g i) as [e|[k s]] eqn:Hs.
  - exists e. inversion Hrun; subst. eauto 10.
  - exfalso. eapply Hbad; eauto.
Qed.

Lemma save_to_mp4_effect fuel index video_name count g r g' t :
  save_to_mp4 fuel index video_name count g = (r, g', t) ->
  screen_video_queue g' = screen_video_queue g /\
  fs g' = fs g /\
  frame_counter g' = frame_counter g /\
  video_counter g <= video_counter g' /\
  sleeps t = [] /\
  (writer_opened t = [] \/
   exists path fps size,
     writer_opened t = [(path, "mp4v", fps, size)] /\ 1 <= fps /\
     r = Return tt /\ video_counter g < video_counter g').
Proof.
  rewrite save_to_mp4_run.
  destruct (session_at g index) as [e|[k s]].
  { intros E; inversion E; subst. repeat split; auto; try lia. }
  cbn zeta.
  destruct (negb _ && _).
  2:{ intros E; inversion E; subst. repeat split; auto; try lia. }
  destruct (int_of_float _) as [e|z].
  { intros E; inversion E; subst. repeat split; auto; try lia. }
  destruct (framePaths s) as [|first rest].
  { intros E; inversion E; subst. repeat split; auto; try lia. }
  destruct (imread g first) as [img|].
  2:{ intros E; inversion E; subst. repeat split; auto; try lia. }
  pose proof (next_path_index_le fuel g (screenshot_directory g)
                (replace_slash os_sep video_name) (video_counter g)) as Hle.
  destruct (next_path _ _ _ _ _) as [[path|e|] i] eqn:En; cbn [snd] in Hle.
  2,3: intros E; inversion E; subst; repeat split; auto.
  intros E; inversion E; subst; clear E.
  destruct (next_path_found _ _ _ _ _ _ _ En) as (Hlt & _).
  split; [reflexivity|]. split; [reflexivity|]. split; [reflexivity|].
  split; [exact Hle|].
  split; [cbn; rewrite sleeps_app, sleeps_writes; reflexivity|].
  right. eexists path, _, _. split.
  - cbn. rewrite writer_opened_app, writer_opened_writes. reflexivity.
  - split; [|split; [reflexivity | exact Hlt]].
    destruct ((z <? 1) || _) eqn:Eb; [lia|].
    apply orb_false_elim in Eb as [Ez _]. apply Z.ltb_ge in Ez. exact Ez.
Qed.

Lemma session_at_error g i e :
  session_at g i = inl e -> e = NameError \/ e = IndexError.
Proof.
  unfold session_at. destruct (screen_video_queue g) as [q|]; [|intros E; inversion E; auto].
  destruct (py_index q i) as [k|]; [|intros E; inversion E; auto].
  destruct (q !! k); intros E; inversion E; auto.
Qed.

Lemma int_of_float_error x e :
  int_of_float x = inl e -> e = OverflowError \/ e = ValueError.
Proof. destruct x; intros E; inversion E; auto. Qed.

Lemma next_path_raise fuel g directory filename : forall index e k,
  next_path fuel g directory filename index = (Raise e, k) -> e = FormatError.
Proof.
  induction fuel as [|fuel IH]; intros index e k; cbn [next_path]; [discriminate|].
  destruct (str_format filename (index + 1)) as [formatted|]; [|congruence].
  destruct (String.eqb formatted filename || negb (path_exists g (path_join directory formatted)));
    [discriminate | apply IH].
Qed.

(** The saving part raises none of the RuntimeErrors of the checks. *)
Lemma save_to_mp4_no_runtime_error fuel index video_name count g r g' t :
  save_to_mp4 fuel index video_name count g = (r, g', t) ->
  forall msg, r <> Raise (RuntimeError msg).
Proof.
  rewrite save_to_mp4_run. intros Hrun msg.
  destruct (session_at g index) as [e|[k s]] eqn:Hs.
  { inversion Hrun; subst. destruct (session_at_error _ _ _ Hs); congruence. }
  cbn zeta in Hrun.
  destruct (negb _ && _); [|inversion Hrun; discriminate].
  destruct (int_of_float _) as [e|z] eqn:Ei.
  { inversion Hrun; subst. destruct (int_of_float_error _ _ Ei); congruence. }
  destruct (framePaths s) as [|first rest]; [inversion Hrun; discriminate|].
  destruct (imread g first) as [img|]; [|inversion Hrun; discriminate].
  destruct (next_path _ _ _ _ _) as [[path|e|] i] eqn:En;
    inversion Hrun; subst; try discriminate.
  rewrite (next_path_raise _ _ _ _ _ _ _ En). discriminate.
Qed.

(** A stop whose index denotes a session raises no RuntimeError. *)
Lemma stop_valid_no_runtime_error others fuel video_name g i k s r g' t :
  session_at g i = inr (k, s) ->
  stop_recording_and_save_to_mp4 others fuel (ArgInt i) video_name g = (r, g', t) ->
  forall msg, r <> Raise (RuntimeError msg).
Proof.
  intros Hs Hrun msg.
  destruct (stop_valid_cases _ _ _ _ _ _ _ _ _ _ Hs Hrun)
    as [(j & k1 & s1 & r2 & g2 & t2 & _ & _ & _ & _ & Hsave & -> & _)
       |[(j & e & _ & He & -> & _)|(_ & -> & _)]].
  - exact (save_to_mp4_no_runtime_error _ _ _ _ _ _ _ _ Hsave msg).
  - destruct (session_at_error _ _ _ He); congruence.
  - discriminate.
Qed.

End StopCases.

Lemma poll_state_nobody g j : poll_state nobody g j = g.
Proof. induction j as [|j IH]; [reflexivity | exact IH]. Qed.

Lemma writer_opened_stop_prefix i j t2 :
  writer_opened (LogInfo (MsgStop i) :: replicate j (Sleep 1) ++ t2) = writer_opened t2.
Proof. cbn. rewrite writer_opened_app, writer_opened_replicate. reflexivity. Qed.

(** X6: every stop opens at most one encoder, and an encoder it opens has
    the codec mp4v and a frame rate of at least 1, whatever the recording
    time was (negative, tiny or not a number); the stop then returns
    normally. *)
Theorem stop_opens_one_valid_encoder `{Platform} others fuel a video_name g r g' t :
  stop_recording_and_save_to_mp4 others fuel a video_name g = (r, g', t) ->
  writer_opened t = [] \/
  exists path fps size,
    writer_opened t = [(path, "mp4v", fps, size)] /\ 1 <= fps /\ r = Return tt.
Proof.
  intros Hrun.
  destruct a as [|i|].
  1,3: destruct (stop_invalid_cases _ _ _ _ _ _ _ _ Hrun) as (e & _ & _ & [->|(i & Hi & _)]);
       [discriminate | auto | discriminate].
  destruct (session_at g i) as [e|[k s]] eqn:Hs.
  { destruct (stop_invalid_cases _ _ _ _ _ _ _ _ Hrun) as (e' & _ & _ & [->|(i' & _ & ->)]);
      [intros i' k s Hi; inversion Hi; subst; congruence | auto | auto]. }
  destruct (stop_valid_cases _ _ _ _ _ _ _ _ _ _ Hs Hrun)
    as [(j & k1 & s1 & r2 & g2 & t2 & _ & _ & _ & _ & Hsave & -> & -> & ->)
       |[(j & e & _ & _ & _ & _ & ->)|(_ & _ & _ & ->)]].
  - rewrite writer_opened_stop_prefix.
    destruct (save_to_mp4_effect _ _ _ _ _ _ _ _ Hsave)
      as (_ & _ & _ & _ & _ & [Hno|(path & fps & size & Hw & Hfps & Hr & _)]); [auto|].
    right. exists path, fps, size. auto.
  - left. cbn. apply writer_opened_replicate.
  - left. reflexivity.
Qed.

Lemma stop_opens_one_valid_encoder_witness :
  exists r g' t,
    stop_recording_and_save_to_mp4 (H := Posix.platform) capture_loop_0 3 (ArgInt 0)
      "out-{index}.mp4" six_frames = (r, g', t) /\
    (writer_opened t = [] \/
     exists path fps size,
       writer_opened t = [(path, "mp4v", fps, size)] /\ 1 <= fps /\ r = Return tt).
Proof.
  eexists _, _, _. split; [reflexivity|].
  eapply (@stop_opens_one_valid_encoder Posix.platform capture_loop_0 3 (ArgInt 0)
            "out-{index}.mp4" six_frames).
  reflexivity.
Defined.

(** X7: when the capture loop of the session makes its next pass during the
    first sleep of a stop, the stop sleeps exactly once: the pass finds the
    switch off, captures nothing and sets the finished flag, and the stop
    goes on to save with the recording time and the frames the session had
    when the stop was requested.  This holds whether or not the recording
    switch was already off, so a stop that gave up can be repeated. *)
Theorem stop_meets_capture_loop `{Platform} fuel fuel' filename start_time a video_name
    g i k s :
  session_at g i = inr (k, s) ->
  finished s = false ->
  stop_recording_and_save_to_mp4 (fun _ => pass fuel' i filename start_time a) fuel
    (ArgInt i) video_name g =
  let '(r, g2, t2) :=
    save_to_mp4 fuel i video_name 1
      (write_session k
         {| elapsedSeconds := elapsedSeconds s; recording := false;
            framePaths := framePaths s; finished := true |} g) in
  (r, g2, LogInfo (MsgStop i) :: Sleep 1 :: t2).
Proof.
  intros Hs Hfin.
  rewrite (stop_run _ _ _ _ _ i (checked_index_valid _ _ _ _ Hs)), Hs.
  pose proof (session_at_write g i k s (set_recording false s) Hs) as Hs0.
  rewrite wait_finishing_run, Hs0. cbn [finished set_recording]. rewrite Hfin.
  change (0 + 1 =? 5) with false. cbn iota beta.
  assert (Hp : pass fuel' i filename start_time a
                 (write_session k (set_recording false s) g) =
               write_session k (set_finished true (set_recording false s)) g).
  { unfold pass. rewrite (loop_step_ended _ _ _ _ _ _ _ _ Hs0 eq_refl). cbn [fst snd].
    apply write_session_twice. }
  rewrite Hp.
  pose proof (session_at_write g i k s
                (set_finished true (set_recording false s)) Hs) as Hs1.
  rewrite wait_finishing_run, Hs1. cbn [finished set_finished set_recording].
  change (0 + 1) with 1.
  change (set_finished true (set_recording false s)) with
    {| elapsedSeconds := elapsedSeconds s; recording := false;
       framePaths := framePaths s; finished := true |}.
  destruct (save_to_mp4 _ _ _ _ _) as [[r g2] t2]. reflexivity.
Qed.

Lemma stop_meets_capture_loop_witness :
  stop_recording_and_save_to_mp4 (H := Posix.platform)
    (fun _ => pass (H := Posix.platform) 3 0 "frame-{index}.png" (binary64 100 0)
                {| makedirs_ok := true; shot := Saved frame_image; now := binary64 104 0 |})
    3 (ArgInt 0) "out-{index}.mp4" six_frames =
  let '(r, g2, t2) :=
    save_to_mp4 (H := Posix.platform) 3 0 "out-{index}.mp4" 1
      (write_session 0
         {| elapsedSeconds := binary64 3 0; recording := false;
            framePaths := ["/out/frame-1.png"; "/out/frame-2.png"; "/out/frame-3.png";
                           "/out/frame-4.png"; "/out/frame-5.png"; "/out/frame-6.png"];
            finished := true |} six_frames) in
  (r, g2, LogInfo (MsgStop 0) :: Sleep 1 :: t2).
Proof.
  apply (@stop_meets_capture_loop Posix.platform 3 3 "frame-{index}.png" (binary64 100 0)
           {| makedirs_ok := true; shot := Saved frame_image; now := binary64 104 0 |}
           "out-{index}.mp4" six_frames 0 0%nat
           {| elapsedSeconds := binary64 3 0; recording := true;
              framePaths := ["/out/frame-1.png"; "/out/frame-2.png"; "/out/frame-3.png";
                             "/out/frame-4.png"; "/out/frame-5.png"; "/out/frame-6.png"];
              finished := false |});
    reflexivity.
Defined.

(** X8: a stop of a session that is already finished is not rejected by
    the checks, never sleeps and does not depend on the other threads: it is
    the log line of the stop followed by the saving part, run at once with a
    wait of 0 on the state in which the recording switch of the session is
    off.  It raises no RuntimeError; what it raises is what the saving part
    raises, as the AttributeError of a first frame that cannot be read.  When
    it opens an encoder it returns normally and the video counter has moved
    to a strictly larger value, so a second stop of the same handle writes a
    second video under a later index. *)
Theorem stop_of_finished_session_saves_again `{Platform} others fuel video_name g i k s :
  session_at g i = inr (k, s) ->
  finished s = true ->
  stop_recording_and_save_to_mp4 others fuel (ArgInt i) video_name g =
    (let '(r, g2, t2) :=
       save_to_mp4 fuel i video_name 0
         (write_session k
            {| elapsedSeconds := elapsedSeconds s; recording := false;
               framePaths := framePaths s; finished := finished s |} g) in
     (r, g2, LogInfo (MsgStop i) :: t2)) /\
  forall r g' t,
    stop_recording_and_save_to_mp4 others fuel (ArgInt i) video_name g = (r, g', t) ->
    sleeps t = [] /\
    (forall msg, r <> Raise (RuntimeError msg)) /\
    (writer_opened t <> [] -> r = Return tt /\ video_counter g < video_counter g').
Proof.
  intros Hs Hfin.
  change {| elapsedSeconds := elapsedSeconds s; recording := false;
            framePaths := framePaths s; finished := finished s |}
    with (set_recording false s).
  assert (Hrun : stop_recording_and_save_to_mp4 others fuel (ArgInt i) video_name g =
            (let '(r, g2, t2) :=
               save_to_mp4 fuel i video_name 0 (write_session k (set_recording false s) g) in
             (r, g2, LogInfo (MsgStop i) :: t2))).
  { rewrite (stop_run _ _ _ _ _ i (checked_index_valid _ _ _ _ Hs)), Hs.
    pose proof (session_at_write g i k s (set_recording false s) Hs) as Hs0.
    rewrite wait_finishing_run, Hs0. cbn [finished set_recording]. rewrite Hfin.
    destruct (save_to_mp4 _ _ _ _ _) as [[r g2] t2]. reflexivity. }
  split; [exact Hrun|]. intros r g' t. rewrite Hrun.
  destruct (save_to_mp4 _ _ _ _ _) as [[r2 g2] t2] eqn:Hsave.
  intros E; inversion E; subst r g' t; clear E.
  pose proof (save_to_mp4_no_runtime_error _ _ _ _ _ _ _ _ Hsave) as Hnr.
  destruct (save_to_mp4_effect _ _ _ _ _ _ _ _ Hsave)
    as (_ & _ & _ & _ & Hsl & [Hno|(path & fps & size & Hw & _ & Hr & Hlt)]).
  - split; [exact Hsl|]. split; [exact Hnr|]. intros Hw. exfalso. apply Hw. exact Hno.
  - split; [exact Hsl|]. split; [exact Hnr|]. intros _. split; [exact Hr|].
    rewrite video_counter_write_session in Hlt. exact Hlt.
Qed.

Lemma stop_of_finished_session_saves_again_witness :
  exists g1 t1 g2 t2,
    stop_recording_and_save_to_mp4 (H := Posix.platform) nobody 3 (ArgInt 0)
      "out-{index}.mp4" six_frames_done = (Return tt, g1, t1) /\
    stop_recording_and_save_to_mp4 (H := Posix.platform) nobody 3 (ArgInt 0)
      "out-{index}.mp4" g1 = (Return tt, g2, t2) /\
    (fst <$> writer_opened t1) = [("/out/out-1.mp4", "mp4v", 2)] /\
    (fst <$> writer_opened t2) = [("/out/out-2.mp4", "mp4v", 2)] /\
    video_counter six_frames_done < video_counter g1.
Proof.
  eexists _, _, _, _. split; [reflexivity|]. split; [reflexivity|].
  split; [reflexivity|]. split; [reflexivity|].
  refine (proj2 (proj2 (proj2 (proj2 (@stop_of_finished_session_saves_again Posix.platform
                   nobody 3 "out-{index}.mp4" six_frames_done 0 0%nat _ eq_refl eq_refl)
                   _ _ _ eq_refl)) _)).
  discriminate.
Defined.

(** ** Invariants of the registry *)

Lemma all_settled_poll_state others g :
  (forall k g, all_settled g -> all_settled (others k g)) ->
  all_settled g -> forall j, all_settled (poll_state others g j).
Proof. intros Hothers Hg. induction j as [|j IH]; [exact Hg | apply Hothers, IH]. Qed.

(** X9: no session is ever both finished and recording.  A start, a pass of
    a capture loop and a stop each keep this true of every session of the
    registry, provided the other threads that run during the sleeps of the
    stop keep it; it holds in a process that has recorded nothing. *)
Theorem sessions_stay_settled `{Platform} :
  (forall g, registry g = [] -> all_settled g) /\
  (forall filename g r g' t,
     all_settled g -> capture_screenshots filename g = (r, g', t) -> all_settled g') /\
  (forall fuel index filename start_time a g r g' t,
     all_settled g ->
     loop_step fuel index filename start_time a g = (r, g', t) -> all_settled g') /\
  (forall others fuel a video_name g r g' t,
     (forall k g, all_settled g -> all_settled (others k g)) ->
     all_settled g ->
     stop_recording_and_save_to_mp4 others fuel a video_name g = (r, g', t) ->
     all_settled g').
Proof.
  split; [|split; [|split]].
  - intros g Hg. unfold all_settled. rewrite Hg. constructor.
  - intros filename g r g' t Hg. rewrite capture_screenshots_run.
    intros E; inversion E; subst. unfold all_settled, registry at 1. cbn.
    apply Forall_app. split; [exact Hg|]. constructor; [|constructor].
    unfold settled, fresh_session. cbn. discriminate.
  - intros fuel index filename start_time a g r g' t Hg Hrun.
    destruct (loop_step_effect _ _ _ _ _ _ _ _ _ Hrun)
      as [(e & _ & _ & -> & _)|(k & s & s' & Hs & _ & Hreg & _ & Hcase)]; [exact Hg|].
    unfold all_settled. rewrite Hreg. apply Forall_insert; [exact Hg|].
    pose proof (registry_lookup_session _ _ _ _ Hs) as Hk.
    unfold all_settled in Hg. rewrite Forall_lookup in Hg. specialize (Hg _ _ Hk).
    unfold settled in *.
    destruct Hcase as [(Hoff & -> & _)|(Hon & Hon' & Hfin & _)].
    + intros _. exact Hoff.
    + rewrite Hfin. intros Hf. specialize (Hg Hf). congruence.
  - intros others fuel a video_name g r g' t Hothers Hg Hrun.
    assert (Hinvalid : (forall i k s, a = ArgInt i -> session_at g i <> inr (k, s)) ->
                       all_settled g').
    { intros Hbad.
      destruct (stop_invalid_cases _ _ _ _ _ _ _ _ Hrun Hbad) as (e & _ & -> & _). exact Hg. }
    destruct a as [|i|]; [apply Hinvalid; discriminate| |apply Hinvalid; discriminate].
    destruct (session_at g i) as [e|[k s]] eqn:Hs.
    { apply Hinvalid. intros i' k s Hi. inversion Hi; subst. congruence. }
    clear Hinvalid.
    assert (Hg0 : all_settled (write_session k (set_recording false s) g)).
    { unfold all_settled. rewrite (registry_write_session _ _ _ _ _ Hs).
      apply Forall_insert; [exact Hg|]. unfold settled. reflexivity. }
    pose proof (all_settled_poll_state others _ Hothers Hg0) as Hpoll.
    destruct (stop_valid_cases _ _ _ _ _ _ _ _ _ _ Hs Hrun)
      as [(j & k1 & s1 & r2 & g2 & t2 & _ & _ & _ & _ & Hsave & _ & -> & _)
         |[(j & e & _ & _ & _ & -> & _)|(_ & _ & -> & _)]].
    + destruct (save_to_mp4_effect _ _ _ _ _ _ _ _ Hsave) as (Hq & _).
      unfold all_settled. rewrite (registry_ext _ _ Hq). apply Hpoll.
    + apply Hpoll.
    + apply Hpoll.
Qed.

Lemma sessions_stay_settled_witness :
  all_settled
    (stop_recording_and_save_to_mp4 (H := Posix.platform) capture_loop_0 3 (ArgInt 0)
       "out-{index}.mp4" six_frames).1.2.
Proof.
  destruct (stop_recording_and_save_to_mp4 (H := Posix.platform) capture_loop_0 3 (ArgInt 0)
              "out-{index}.mp4" six_frames) as [[r g'] t] eqn:Hrun.
  apply (proj2 (proj2 (proj2 (@sessions_stay_settled Posix.platform)))
           capture_loop_0 3%nat (ArgInt 0) "out-{index}.mp4" six_frames r g' t).
  - intros k g Hg. unfold capture_loop_0.
    destruct (loop_step (H := Posix.platform) 3 0 "frame-{index}.png" (binary64 100 0)
                {| makedirs_ok := true; shot := Saved frame_image; now := binary64 104 0 |} g)
      as [[r1 g1] t1] eqn:Hstep.
    exact (proj1 (proj2 (proj2 (@sessions_stay_settled Posix.platform)))
             _ _ _ _ _ _ _ _ _ Hg Hstep).
  - repeat constructor. discriminate.
  - exact Hrun.
Defined.

(** X10: a pass of the capture loop of one handle changes no session but
    its own, adds and removes none and leaves the video counter alone; a
    stop, apart from what the other threads do during its sleeps, writes
    nothing into the registry but the recording switch of its own session,
    which it leaves off, and does not touch the frame counter. *)
Theorem keywords_write_their_own_session `{Platform} :
  (forall fuel index filename start_time a g r g' t k s,
     loop_step fuel index filename start_time a g = (r, g', t) ->
     session_at g index = inr (k, s) ->
     (forall j, j <> k -> registry g' !! j = registry g !! j) /\
     length (registry g') = length (registry g) /\
     video_counter g' = video_counter g) /\
  (forall fuel i video_name g r g' t k s,
     stop_recording_and_save_to_mp4 nobody fuel (ArgInt i) video_name g = (r, g', t) ->
     session_at g i = inr (k, s) ->
     registry g' =
       <[k := {| elapsedSeconds := elapsedSeconds s; recording := false;
                 framePaths := framePaths s; finished := finished s |}]> (registry g) /\
     frame_counter g' = frame_counter g).
Proof.
  split.
  - intros fuel index filename start_time a g r g' t k s Hrun Hs.
    destruct (loop_step_effect _ _ _ _ _ _ _ _ _ Hrun)
      as [(e & He & _)|(k' & s0 & s' & Hs0 & _ & Hreg & Hv & _)]; [congruence|].
    assert (k' = k) as -> by congruence.
    rewrite Hreg. split; [|split; [apply length_insert | exact Hv]].
    intros j Hj. apply list_lookup_insert_ne. congruence.
  - intros fuel i video_name g r g' t k s Hrun Hs.
    assert (Hg0 : registry (write_session k (set_recording false s) g) =
                  <[k := set_recording false s]> (registry g))
      by (eapply registry_write_session; exact Hs).
    assert (Hf0 : frame_counter (write_session k (set_recording false s) g) = frame_counter g)
      by apply frame_counter_write_session.
    destruct (stop_valid_cases _ _ _ _ _ _ _ _ _ _ Hs Hrun)
      as [(j & k1 & s1 & r2 & g2 & t2 & _ & _ & _ & _ & Hsave & _ & -> & _)
         |[(j & e & _ & _ & _ & -> & _)|(_ & _ & -> & _)]];
      rewrite ?poll_state_nobody in *; auto.
    destruct (save_to_mp4_effect _ _ _ _ _ _ _ _ Hsave) as (Hq & _ & Hf & _).
    rewrite (registry_ext _ _ Hq), Hf. auto.
Qed.

Lemma keywords_write_their_own_session_witness :
  registry
    (stop_recording_and_save_to_mp4 (H := Posix.platform) nobody 3 (ArgInt 0)
       "out-{index}.mp4" six_frames_done).1.2 =
  [{| elapsedSeconds := binary64 3 0; recording := false;
      framePaths := ["/out/frame-1.png"; "/out/frame-2.png"; "/out/frame-3.png";
                     "/out/frame-4.png"; "/out/frame-5.png"; "/out/frame-6.png"];
      finished := true |}].
Proof.
  destruct (stop_recording_and_save_to_mp4 (H := Posix.platform) nobody 3 (ArgInt 0)
              "out-{index}.mp4" six_frames_done) as [[r g'] t] eqn:Hrun.
  apply (proj1 (proj2 (@keywords_write_their_own_session Posix.platform)
           3%nat 0 "out-{index}.mp4" six_frames_done r g' t 0%nat _ Hrun eq_refl)).
Defined.

(** X11: a recording stopped right after it was started, whose capture
    loop makes its first pass only during the first sleep of the stop, saves
    no video: in any state, the start followed by the stop of the handle it
    returned logs the start and the stop, sleeps once, logs the wait and a
    recording time of 0 with 0 frames, opens no encoder and leaves the video
    counter as it was; the new session ends finished and not recording. *)
Theorem stop_right_after_start_saves_nothing `{Platform} fuel fuel' filename start_time a
    video_name g :
  (h ← capture_screenshots filename;
   stop_recording_and_save_to_mp4 (fun _ => pass fuel' h filename start_time a) fuel
     (ArgInt h) video_name) g =
  (Return tt,
   set_screen_video_queue
     (Some (registry g ++
            [{| elapsedSeconds := float_zero; recording := false;
                framePaths := []; finished := true |}])) g,
   [LogInfo (MsgStart (Z.of_nat (registry_size g)));
    ThreadStart (Z.of_nat (registry_size g)) filename;
    LogInfo (MsgStop (Z.of_nat (registry_size g)));
    Sleep 1;
    LogInfo (MsgWaited 1);
    LogInfo (MsgRecorded float_zero 0)]).
Proof.
  rewrite run_bind, capture_screenshots_run.
  set (g1 := set_screen_video_queue (Some (registry g ++ [fresh_session])) g).
  set (n := registry_size g).
  assert (Hs : session_at g1 (Z.of_nat n) = inr (n, fresh_session)).
  { unfold session_at, g1. cbn [screen_video_queue set_screen_video_queue].
    assert (Hn : n = length (registry g)) by apply registry_size_length.
    rewrite py_index_nonneg by (rewrite length_app; cbn; lia).
    rewrite Nat2Z.id, Hn, list_lookup_middle by reflexivity. reflexivity. }
  rewrite (stop_meets_capture_loop _ _ _ _ _ _ _ _ _ _ Hs eq_refl).
  rewrite save_to_mp4_run.
  erewrite session_at_write by exact Hs. cbn.
  unfold write_session, g1. cbn.
  replace n with (length (registry g) + 0)%nat by (unfold n; rewrite registry_size_length; lia).
  rewrite insert_app_r. reflexivity.
Qed.

(** ** Frames on disk *)

Section Frames.
Context `{Platform}.

Lemma prepare_frame_found fuel filename mk_ok g path g1 t1 :
  prepare_frame fuel filename mk_ok g = (Return path, g1, t1) ->
  frame_counter g < frame_counter g1 /\
  (forall p, imread g1 p = imread g p) /\
  exists s,
    str_format (replace_slash os_sep filename) (frame_counter g1) = Some s /\
    path = path_join (screenshot_directory g) s /\
    (s <> replace_slash os_sep filename -> path_exists g path = false).
Proof.
  unfold prepare_frame. rewrite run_bind, _get_video_image_path_run.
  destruct (next_path _ _ _ _ _) as [[p|e|] k] eqn:En; [|discriminate..].
  destruct (next_path_found _ _ _ _ _ _ _ En) as (Hlt & _ & s & Hs & -> & Hfree).
  rewrite run_bind.
  destruct (_create_directory mk_ok _ _) as [[r1 g2] t2] eqn:Ec.
  destruct (_create_directory_inv _ _ _ _ _ _ Ec) as (_ & Him & _ & _ & Hf & _ & _).
  destruct r1 as [[]|e|]; [|discriminate..].
  intros E; inversion E; subst; clear E.
  split; [rewrite Hf; exact Hlt|]. split; [intros p; rewrite Him; reflexivity|].
  exists s. rewrite Hf. auto.
Qed.

Lemma append_neq {A} (l : list A) x : l ++ [x] <> l.
Proof.
  intros E. apply (f_equal length) in E. rewrite length_app in E. cbn in E. lia.
Qed.

End Frames.

(** X12: a pass of the capture loop lengthens the frame list of a recording
    session only by a file it has just written: when the list changes, the
    driver saved an image, the list grew by exactly one path at the end, the
    file at that path holds that image, and the path is the template
    formatted with the new value of the frame counter, which is larger than
    the old one.  When formatting changes the template (it has a
    placeholder) the path did not exist before the pass, so no earlier frame
    or screenshot is written over. *)
Theorem recorded_frame_is_new `{Platform} fuel index filename start_time a g k s r g' t s' :
  session_at g index = inr (k, s) ->
  recording s = true ->
  loop_step fuel index filename start_time a g = (r, g', t) ->
  session_at g' index = inr (k, s') ->
  framePaths s' <> framePaths s ->
  exists path img fmt,
    shot a = Saved img /\
    framePaths s' = framePaths s ++ [path] /\
    imread g' path = Some img /\
    frame_counter g < frame_counter g' /\
    str_format (replace_slash os_sep filename) (frame_counter g') = Some fmt /\
    path = path_join (screenshot_directory g) fmt /\
    (fmt <> replace_slash os_sep filename -> path_exists g path = false).
Proof.
  intros Hs Hrec Hrun Hs' Hchanged.
  destruct (prepare_frame fuel filename (makedirs_ok a) g) as [[r1 g1] t1] eqn:Hprep.
  destruct (capture_loop_pass _ _ _ start_time _ _ _ _ _ _ _ Hs Hrec Hprep) as (Hs1 & Hstep).
  rewrite Hstep in Hrun.
  assert (Hsame : (r, g', t) = (r, g1, t) -> False).
  { intros E. inversion E; subst. rewrite Hs1 in Hs'. inversion Hs'; subst. congruence. }
  destruct r1 as [path|e|]; [destruct (shot a) as [img| |] eqn:Hshot|..];
    inversion Hrun; subst r g' t; try (exfalso; apply Hsame; reflexivity).
  - destruct (prepare_frame_found _ _ _ _ _ _ _ Hprep) as (Hlt & _ & fmt & Hfmt & Hpath & Hfree).
    erewrite session_at_write in Hs'
      by (rewrite (session_at_ext g1) by reflexivity; exact Hs1).
    inversion Hs'; subst s'. cbn in *.
    exists path, img, fmt. split; [reflexivity|]. split; [reflexivity|].
    split; [unfold imread, write_session; destruct (screen_video_queue _); cbn;
            rewrite lookup_insert_eq; reflexivity|].
    split; [rewrite frame_counter_write_session; exact Hlt|].
    rewrite frame_counter_write_session. auto.
  - exfalso. erewrite session_at_write in Hs' by exact Hs1.
    inversion Hs'; subst s'. apply Hchanged. reflexivity.
Qed.

Lemma recorded_frame_is_new_witness :
  exists path img fmt,
    Saved frame_image = Saved img /\
    ["/out/frame-1.png"] = [] ++ [path] /\
    imread (pass (H := Posix.platform) 3 0 "frame-{index}.png" (binary64 100 0)
              {| makedirs_ok := true; shot := Saved frame_image; now := binary64 201 (-1) |}
              recording_one) path = Some img /\
    frame_counter recording_one <
      frame_counter (pass (H := Posix.platform) 3 0 "frame-{index}.png" (binary64 100 0)
                       {| makedirs_ok := true; shot := Saved frame_image;
                          now := binary64 201 (-1) |} recording_one) /\
    Posix.format_index "frame-{index}.png"
      (frame_counter (pass (H := Posix.platform) 3 0 "frame-{index}.png" (binary64 100 0)
                        {| makedirs_ok := true; shot := Saved frame_image;
                           now := binary64 201 (-1) |} recording_one)) = Some fmt /\
    path = Posix.join "/out" fmt /\
    (fmt <> "frame-{index}.png" -> path_exists recording_one path = false).
Proof.
  apply (@recorded_frame_is_new Posix.platform 3 0 "frame-{index}.png" (binary64 100 0)
           {| makedirs_ok := true; shot := Saved frame_image; now := binary64 201 (-1) |}
           recording_one 0%nat fresh_session (Return Looping) _ []
           {| elapsedSeconds := float_sub (binary64 201 (-1)) (binary64 100 0);
              recording := true; framePaths := ["/out/frame-1.png"]; finished := false |}).
  - reflexivity.
  - reflexivity.
  - reflexivity.
  - reflexivity.
  - discriminate.
Defined.

(** X13: creating the directory of a path is idempotent: once a call has
    returned, the directory exists, and any further call for the same path
    returns without changing anything, even where os.makedirs would fail.
    A call raises only when the directory is missing and cannot be made, and
    then it has changed nothing. *)
Theorem _create_directory_idempotent `{Platform} mk_ok path g r g1 t :
  _create_directory mk_ok path g = (r, g1, t) ->
  match r with
  | Return _ =>
      path_exists g1 (path_dirname path) = true /\
      forall mk_ok', _create_directory mk_ok' path g1 = (Return tt, g1, [])
  | Raise e =>
      e = OSError /\ g1 = g /\ path_exists g (path_dirname path) = false /\ mk_ok = false
  | Diverge => False
  end.
Proof.
  intros Hrun. destruct (_create_directory_inv _ _ _ _ _ _ Hrun) as (_ & _ & _ & _ & _ & _ & Hr).
  destruct r as [[]|e|]; [|rewrite _create_directory_run in Hrun|exact Hr].
  - split; [exact Hr|]. intros mk_ok'. rewrite _create_directory_run, Hr. reflexivity.
  - destruct (path_exists g (path_dirname path)); [discriminate|].
    destruct mk_ok; [discriminate|]. inversion Hrun; subst. auto.
Qed.

Lemma _create_directory_idempotent_witness :
  _create_directory (H := Posix.platform) false "/new/shots/a.png"
    (set_fs (<["/new/shots" := Directory]> (fs configured)) configured) =
  (Return tt, set_fs (<["/new/shots" := Directory]> (fs configured)) configured, []).
Proof.
  exact (proj2 (@_create_directory_idempotent Posix.platform true "/new/shots/a.png"
                  configured (Return tt)
                  (set_fs (<["/new/shots" := Directory]> (fs configured)) configured) []
                  eq_refl) false).
Defined.

(** ** The wait reported by a stop *)

Lemma waits_logged_app t1 t2 : waits_logged (t1 ++ t2) = waits_logged t1 ++ waits_logged t2.
Proof. apply omap_app. Qed.

Lemma waits_logged_replicate n : waits_logged (replicate n (Sleep 1)) = [].
Proof. induction n as [|n IH]; [reflexivity | exact IH]. Qed.

Lemma waits_logged_writes g l :
  waits_logged ((fun p => WriterWrite p (imread g p)) <$> l) = [].
Proof. induction l as [|p l IH]; [reflexivity | exact IH]. Qed.

Lemma save_to_mp4_waits `{Platform} fuel index video_name count g r g' t :
  save_to_mp4 fuel index video_name count g = (r, g', t) -> waits_logged t = [count].
Proof.
  rewrite save_to_mp4_run.
  destruct (session_at g index) as [e|[k s]]; [intros E; inversion E; reflexivity|].
  cbn zeta. destruct (negb _ && _); [|intros E; inversion E; reflexivity].
  destruct (int_of_float _); [intros E; inversion E; reflexivity|].
  destruct (framePaths s); [intros E; inversion E; reflexivity|].
  destruct (imread g _); [|intros E; inversion E; reflexivity].
  destruct (next_path _ _ _ _ _) as [[path|e|] c]; intros E; inversion E; try reflexivity.
  cbn. rewrite waits_logged_app, waits_logged_writes. reflexivity.
Qed.

(** X14: the wait a stop reports is the wait it made.  A stop whose index
    denotes a session logs its wait line at most once; when it does, the
    number in the line is the number of one-second sleeps of the whole call,
    between 0 and 4; when it does not, it either gave up after five sleeps
    or the queue access failed. *)
Theorem stop_reports_its_wait `{Platform} others fuel video_name g i k s r g' t :
  session_at g i = inr (k, s) ->
  stop_recording_and_save_to_mp4 others fuel (ArgInt i) video_name g = (r, g', t) ->
  (exists j, (j <= 4)%nat /\ waits_logged t = [Z.of_nat j] /\ sleeps t = replicate j 1) \/
  (waits_logged t = [] /\
   ((r = Return tt /\ sleeps t = replicate 5 1) \/ exists e, r = Raise e)).
Proof.
  intros Hs Hrun.
  destruct (stop_valid_cases _ _ _ _ _ _ _ _ _ _ Hs Hrun)
    as [(j & k1 & s1 & r2 & g2 & t2 & Hj & _ & _ & _ & Hsave & _ & _ & ->)
       |[(j & e & _ & _ & -> & _ & ->)|(_ & -> & _ & ->)]].
  - left. exists j. split; [exact Hj|].
    destruct (save_to_mp4_effect _ _ _ _ _ _ _ _ Hsave) as (_ & _ & _ & _ & Hsl & _).
    split.
    + cbn. rewrite waits_logged_app, waits_logged_replicate.
      exact (save_to_mp4_waits _ _ _ _ _ _ _ _ Hsave).
    + cbn. rewrite sleeps_app, sleeps_replicate, Hsl, app_nil_r. reflexivity.
  - right. split; [cbn; apply waits_logged_replicate | eauto].
  - right. split; [reflexivity|]. left. split; reflexivity.
Qed.

Lemma stop_reports_its_wait_witness :
  exists r g' t,
    stop_recording_and_save_to_mp4 (H := Posix.platform) capture_loop_0 3 (ArgInt 0)
      "out-{index}.mp4" six_frames = (r, g', t) /\
    ((exists j, (j <= 4)%nat /\ waits_logged t = [Z.of_nat j] /\ sleeps t = replicate j 1) \/
     (waits_logged t = [] /\
      ((r = Return tt /\ sleeps t = replicate 5 1) \/ exists e, r = Raise e))).
Proof.
  eexists _, _, _. split; [reflexivity|].
  eapply (@stop_reports_its_wait Posix.platform capture_loop_0 3 "out-{index}.mp4"
            six_frames 0 0%nat); reflexivity.
Defined.

(** ** The path of the video *)

(** X15: the encoder is opened on the video template formatted with the new
    value of the video counter, under the screenshot directory; when
    formatting changes the template (it has a placeholder) no file existed at
    that path, so saving a recording never writes over an existing video. *)
Theorem video_path_is_new `{Platform} fuel index video_name count g r g' t
    path fourcc fps size :
  save_to_mp4 fuel index video_name count g = (r, g', t) ->
  (path, fourcc, fps, size) ∈ writer_opened t ->
  video_counter g < video_counter g' /\
  exists fmt,
    str_format (replace_slash os_sep video_name) (video_counter g') = Some fmt /\
    path = path_join (screenshot_directory g) fmt /\
    (fmt <> replace_slash os_sep video_name -> path_exists g path = false).
Proof.
  rewrite save_to_mp4_run.
  destruct (session_at g index) as [e|[k s]];
    [intros E; inversion E; subst; cbn; intros Hin; inversion Hin|].
  cbn zeta.
  destruct (negb _ && _); [|intros E; inversion E; subst; cbn; intros Hin; inversion Hin].
  destruct (int_of_float _) as [e|z];
    [intros E; inversion E; subst; cbn; intros Hin; inversion Hin|].
  destruct (framePaths s) as [|first rest];
    [intros E; inversion E; subst; cbn; intros Hin; inversion Hin|].
  destruct (imread g first) as [img|];
    [|intros E; inversion E; subst; cbn; intros Hin; inversion Hin].
  destruct (next_path _ _ _ _ _) as [[p|e|] c] eqn:En;
    [|intros E; inversion E; subst; cbn; intros Hin; inversion Hin..].
  destruct (next_path_found _ _ _ _ _ _ _ En) as (Hlt & _ & fmt & Hfmt & -> & Hfree).
  intros E; inversion E; subst; clear E. cbn.
  rewrite writer_opened_app, writer_opened_writes. cbn.
  intros Hin. apply list_elem_of_singleton in Hin. inversion Hin; subst.
  split; [exact Hlt|]. exists fmt. auto.
Qed.

Lemma video_path_is_new_witness :
  video_counter six_frames < video_counter (set_g_video_index (Some 1) six_frames).
Proof.
  eapply (@video_path_is_new Posix.platform 3 0 "out-{index}.mp4" 1 six_frames
            (Return tt) (set_g_video_index (Some 1) six_frames) _
            "/out/out-1.mp4" "mp4v" 2 (800, 600)).
  - reflexivity.
  - cbn. left.
Defined.

(** ** Negative indices *)

(** C10: on a queue of n sessions an index h with -n <= h <= -1 passes the
    checks, which reject with their RuntimeError only None and the indices
    that are at least n; the stop then addresses the session at position
    n + h.  It writes that session back with its recording switch off and
    its other three fields as they were, so that the wait begins in a state
    where the index denotes this stopped session; it goes on to wait for the
    session to finish and to save the video.  Every such run begins with the
    log line of the stop and raises no RuntimeError, and when no other
    thread writes the registry it ends with the registry as it was except
    for this session, which is not recording. *)
Theorem stop_accepts_negative_index `{Platform} others fuel video_name g q h :
  screen_video_queue g = Some q ->
  - Z.of_nat (length q) <= h <= -1 ->
  checked_index (ArgInt h) g = (Return h, g, []) /\
  (forall a,
     (exists msg, checked_index a g = (Raise (RuntimeError msg), g, [])) <->
     a = ArgNone \/ exists i, a = ArgInt i /\ Z.of_nat (length q) <= i) /\
  exists s,
    q !! Z.to_nat (Z.of_nat (length q) + h) = Some s /\
    let stopped :=
      {| elapsedSeconds := elapsedSeconds s; recording := false;
         framePaths := framePaths s; finished := finished s |} in
    let g0 :=
      set_screen_video_queue
        (Some (<[Z.to_nat (Z.of_nat (length q) + h) := stopped]> q)) g in
    session_at g0 h = inr (Z.to_nat (Z.of_nat (length q) + h), stopped) /\
    stop_recording_and_save_to_mp4 others fuel (ArgInt h) video_name g =
      (let '(w, g1, t1) := wait_finishing others 4 h 0 g0 in
       match w with
       | Return None => (Return tt, g1, LogInfo (MsgStop h) :: t1)
       | Return (Some count) =>
           let '(r, g2, t2) := save_to_mp4 fuel h video_name count g1 in
           (r, g2, LogInfo (MsgStop h) :: t1 ++ t2)
       | Raise e => (Raise e, g1, LogInfo (MsgStop h) :: t1)
       | Diverge => (Diverge, g1, LogInfo (MsgStop h) :: t1)
       end) /\
    (forall r g' t,
       stop_recording_and_save_to_mp4 others fuel (ArgInt h) video_name g = (r, g', t) ->
       (forall msg, r <> Raise (RuntimeError msg)) /\
       exists t', t = LogInfo (MsgStop h) :: t') /\
    (forall r g' t,
       stop_recording_and_save_to_mp4 nobody fuel (ArgInt h) video_name g = (r, g', t) ->
       screen_video_queue g' =
         Some (<[Z.to_nat (Z.of_nat (length q) + h) := stopped]> q)).
Proof.
  intros Eq Hh.
  assert (Hc : checked_index (ArgInt h) g = (Return h, g, [])).
  { rewrite checked_index_run, Eq.
    destruct (Z.leb_spec (Z.of_nat (length q)) h); [lia | reflexivity]. }
  split; [exact Hc|]. split.
  { intros a. rewrite checked_index_run, Eq. split.
    + intros (msg & E). destruct a as [|i|]; [auto| |discriminate].
      destruct (Z.leb_spec (Z.of_nat (length q)) i); [eauto | discriminate].
    + intros [->|(i & -> & Hi)]; [eauto|].
      destruct (Z.leb_spec (Z.of_nat (length q)) i); [eauto | lia]. }
  set (k := Z.to_nat (Z.of_nat (length q) + h)).
  destruct (lookup_lt_is_Some_2 q k) as [s Hs]; [unfold k; lia|].
  exists s. split; [exact Hs|]. intros stopped g0.
  assert (Hat : session_at g h = inr (k, s)).
  { unfold session_at. rewrite Eq, py_index_neg by lia. fold k. rewrite Hs. reflexivity. }
  assert (Hg0 : write_session k (set_recording false s) g = g0).
  { unfold write_session. rewrite Eq. reflexivity. }
  split; [|split; [|split]].
  - rewrite <- Hg0. exact (session_at_write g h k s (set_recording false s) Hat).
  - rewrite (stop_run _ _ _ _ _ h Hc), Hat, Hg0. reflexivity.
  - intros r g' t Hrun. split.
    + exact (stop_valid_no_runtime_error _ _ _ _ _ _ _ _ _ _ Hat Hrun).
    + destruct (stop_valid_cases _ _ _ _ _ _ _ _ _ _ Hat Hrun)
        as [(j & k1 & s1 & r2 & g2 & t2 & _ & _ & _ & _ & _ & _ & _ & ->)
           |[(j & e & _ & _ & _ & _ & ->)|(_ & _ & _ & ->)]]; eauto.
  - intros r g' t Hrun.
    assert (Hq0 : screen_video_queue g0 =
                  Some (<[k := stopped]> q)) by reflexivity.
    destruct (stop_valid_cases _ _ _ _ _ _ _ _ _ _ Hat Hrun)
      as [(j & k1 & s1 & r2 & g2 & t2 & _ & _ & _ & _ & Hsave & _ & -> & _)
         |[(j & e & _ & _ & _ & -> & _)|(_ & _ & -> & _)]];
      rewrite ?poll_state_nobody, ?Hg0 in *; auto.
    destruct (save_to_mp4_effect _ _ _ _ _ _ _ _ Hsave) as (Hq & _).
    rewrite Hq. exact Hq0.
Qed.

Lemma stop_accepts_negative_index_witness :
  checked_index (ArgInt (-1)) six_frames = (Return (-1), six_frames, []) /\
  screen_video_queue
    (stop_recording_and_save_to_mp4 (H := Posix.platform) nobody 3 (ArgInt (-1))
       "out-{index}.mp4" six_frames).1.2 =
  Some [{| elapsedSeconds := binary64 3 0; recording := false;
           framePaths := ["/out/frame-1.png"; "/out/frame-2.png"; "/out/frame-3.png";
                          "/out/frame-4.png"; "/out/frame-5.png"; "/out/frame-6.png"];
           finished := false |}] /\
  (stop_recording_and_save_to_mp4 (H := Posix.platform) capture_loop_0 3 (ArgInt (-1))
     "out-{index}.mp4" six_frames).1.1 = Return tt /\
  (fst <$> writer_opened
     (stop_recording_and_save_to_mp4 (H := Posix.platform) capture_loop_0 3 (ArgInt (-1))
        "out-{index}.mp4" six_frames).2) = [("/out/out-1.mp4", "mp4v", 2)].
Proof.
  assert (Hh : - Z.of_nat (length (registry six_frames)) <= -1 <= -1) by (cbn; lia).
  destruct (@stop_accepts_negative_index Posix.platform nobody 3 "out-{index}.mp4"
              six_frames (registry six_frames) (-1) eq_refl Hh)
    as (Hc & _ & s & Hs & _ & _ & _ & Hq).
  split; [exact Hc|]. split; [|split; reflexivity].
  injection Hs as <-.
  destruct (stop_recording_and_save_to_mp4 (H := Posix.platform) nobody 3 (ArgInt (-1))
              "out-{index}.mp4" six_frames) as [[r g'] t] eqn:Hrun.
  exact (Hq r g' t eq_refl).
Defined.
